(** * Weather prediction backend: model resolution and serving pipeline

    A shallow embedding of [backend/main.py] (the [ModelManager] class, the
    [WeatherInput] schema, and the [/predict], [/stats] and [/history]
    endpoints) together with the [Prediction] table of [backend/database.py].

    Conventions of the embedding.
    - Python [str] values are [string]s, each character standing for the
      code point of its number: the strings of code points below 256.  On
      these the string methods below do what Python does, including the
      letters and the whitespace of the Latin-1 range.
    - Python [float] values are exact rationals extended with the two
      infinities and NaN (every finite double is a rational, and the
      comparisons the code performs are exact).
    - A Python [dict] whose iteration order is observed is an association
      list in insertion order with unique keys.
    - Exceptions are values of [exn]; a call that may raise returns a
      [result]. *)

From Stdlib Require Import List String Ascii Bool Arith ZArith QArith Qround Lia.
Import ListNotations.

Close Scope Q_scope.
Open Scope list_scope.
Open Scope string_scope.
Open Scope nat_scope.

(** ** Python string methods *)

Module PyStr.

(** [c.isspace()]: TAB, LF, VT, FF, CR, the four separators FS, GS, RS,
    US, the space, the next-line control U+0085 and the no-break space
    U+00A0. *)
Definition isspace (c : ascii) : bool :=
  let n := nat_of_ascii c in
  ((9 <=? n) && (n <=? 13)) || ((28 <=? n) && (n <=? 32))
  || (n =? 133) || (n =? 160).

(** The letters that [lower] changes: A to Z, and U+00C0 to U+00DE without
    the multiplication sign U+00D7. *)
Definition isupper (c : ascii) : bool :=
  let n := nat_of_ascii c in
  ((65 <=? n) && (n <=? 90))
  || ((192 <=? n) && (n <=? 222) && negb (n =? 215)).

Definition lower_char (c : ascii) : ascii :=
  if isupper c then ascii_of_nat (nat_of_ascii c + 32) else c.

(** [s.lower()] *)
Fixpoint lower (s : string) : string :=
  match s with
  | EmptyString => EmptyString
  | String c rest => String (lower_char c) (lower rest)
  end.

(** [s.lstrip()] *)
Fixpoint lstrip (s : string) : string :=
  match s with
  | EmptyString => EmptyString
  | String c rest => if isspace c then lstrip rest else s
  end.

(** [s.rstrip()] *)
Fixpoint rstrip (s : string) : string :=
  match s with
  | EmptyString => EmptyString
  | String c rest =>
      match rstrip rest with
      | EmptyString => if isspace c then EmptyString else String c EmptyString
      | kept => String c kept
      end
  end.

(** [s.strip()] *)
Definition strip (s : string) : string := rstrip (lstrip s).

(** [s.replace(old, new)] for a non-empty [old], which is how both call
    sites use it: occurrences are replaced left to right without overlap.
    [skip] counts the characters of a matched occurrence still to be
    dropped. *)
Fixpoint replace_from (old new s : string) (skip : nat) : string :=
  match s with
  | EmptyString => EmptyString
  | String c rest =>
      match skip with
      | S k => replace_from old new rest k
      | O =>
          if prefix old s
          then new ++ replace_from old new rest (length old - 1)
          else String c (replace_from old new rest 0)
      end
  end.

Definition replace (s old new : string) : string := replace_from old new s 0.

(** [s.endswith(suffix)] *)
Definition endswith (s suffix : string) : bool :=
  (length suffix <=? length s) &&
  (substring (length s - length suffix) (length suffix) s =? suffix)%string.

(** [sub in s] *)
Fixpoint contains (s sub : string) : bool :=
  prefix sub s ||
  match s with
  | EmptyString => false
  | String _ rest => contains rest sub
  end.

(** Truthiness of an [Optional[str]]: [None] and the empty string are
    falsy. *)
Definition truthy (o : option string) : bool :=
  match o with
  | None => false
  | Some s => negb (s =? EmptyString)%string
  end.

End PyStr.

(** ** Exceptions and results *)

Inductive exn : Type :=
| ValueError (msg : string)
| KeyError (key : string)
| FileNotFoundError (msg : string)
| OtherException (msg : string).

Inductive result (A : Type) : Type :=
| Ok (a : A)
| Raise (e : exn).
Arguments Ok {A} a.
Arguments Raise {A} e.

(** ** Ordered dictionaries *)

Module Dict.
Section Dict.
Context {V : Type}.

Definition t := list (string * V).

Fixpoint get (d : t) (k : string) : option V :=
  match d with
  | [] => None
  | (k', v) :: rest => if (k' =? k)%string then Some v else get rest k
  end.

Definition mem (d : t) (k : string) : bool :=
  match get d k with Some _ => true | None => false end.

(** [d[k] = v]: an existing key keeps its position, a new key goes last. *)
Fixpoint set (d : t) (k : string) (v : V) : t :=
  match d with
  | [] => [(k, v)]
  | (k', v') :: rest =>
      if (k' =? k)%string then (k', v) :: rest else (k', v') :: set rest k v
  end.

Definition keys (d : t) : list string := map fst d.

Definition wf (d : t) : Prop := NoDup (keys d).
End Dict.
Arguments t V : clear implicits.
End Dict.

(** ** City name normalization ([ModelManager._normalize_city_name]) *)

Definition default_city : string := "default".

Definition city_mapping : Dict.t string :=
  [ ("bangalore", "bengaluru");
    ("bombay", "mumbai");
    ("madras", "chennai") ].

(** [city_mapping.get(normalized, normalized)] *)
Definition city_mapping_get (normalized : string) : string :=
  match Dict.get city_mapping normalized with
  | Some canonical => canonical
  | None => normalized
  end.

Definition _normalize_city_name (city : option string) : string :=
  match city with
  | None => default_city
  | Some s =>
      if negb (PyStr.truthy city) then default_city
      else
        let normalized := PyStr.replace (PyStr.strip (PyStr.lower s)) " " "_" in
        city_mapping_get normalized
  end.

(** ** Floating-point values *)

Inductive float : Type :=
| Finite (q : Q)
| Infinity (negative : bool)
| NaN.

Definition float_of_int (z : Z) : float := Finite (inject_Z z).

(** [x >= bound] and [x <= bound] for an integer bound; every comparison
    with NaN is false. *)
Definition float_ge (x : float) (bound : Z) : bool :=
  match x with
  | Finite q => Qle_bool (inject_Z bound) q
  | Infinity negative => negb negative
  | NaN => false
  end.

Definition float_le (x : float) (bound : Z) : bool :=
  match x with
  | Finite q => Qle_bool q (inject_Z bound)
  | Infinity negative => negative
  | NaN => false
  end.

(** Nearest integer, ties to the even one. *)
Definition round_half_even (q : Q) : Z :=
  let f := Qfloor q in
  match Qcompare (q - inject_Z f) (1 # 2) with
  | Lt => f
  | Gt => (f + 1)%Z
  | Eq => if Z.even f then f else (f + 1)%Z
  end.

(** The built-in [round(x, ndigits)] on a float, for [ndigits >= 0]. *)
Definition round (x : float) (ndigits : nat) : float :=
  match x with
  | Finite q =>
      let scale := inject_Z (10 ^ Z.of_nat ndigits) in
      Finite (Qred (inject_Z (round_half_even (q * scale)) / scale))
  | _ => x
  end.

(** ** Model bundles *)

(** The unpickled estimators, seen through the methods the endpoint calls
    on them.  [scaler.transform(df)] maps the single feature row to the
    scaled row; [model.predict(X)[0]] and [model.predict_proba(X)[0][1]]
    are the regressor's and the classifier's outputs for that row.  The
    three are taken on the rows on which they return: a call that raises
    inside the estimator is not part of this model, and what is proved of
    the endpoint is proved of the requests whose inference returns. *)
Record Scaler : Type := { transform : list float -> list float }.
Record Regressor : Type := { predict : list float -> float }.
Record Classifier : Type :=
  { predict_class : list float -> Z;
    predict_proba : list float -> float }.

(** The per-city dictionary with the keys ['temperature'], ['rain'] and
    ['scaler'], each present or absent. *)
Record Bundle : Type :=
  { temperature : option Regressor;
    rain : option Classifier;
    scaler : option Scaler }.

Definition empty_bundle : Bundle :=
  {| temperature := None; rain := None; scaler := None |}.

Definition is_some {A : Type} (o : option A) : bool :=
  match o with Some _ => true | None => false end.

(** [key in models] *)
Definition has_key (models : Bundle) (key : string) : bool :=
  if (key =? "temperature")%string then is_some (temperature models)
  else if (key =? "rain")%string then is_some (rain models)
  else if (key =? "scaler")%string then is_some (scaler models)
  else false.

(** [all(key in models for key in ['temperature', 'rain', 'scaler'])] *)
Definition complete (models : Bundle) : bool :=
  forallb (has_key models) ["temperature"; "rain"; "scaler"].

(** ** Loading ([ModelManager._load_models]) *)

(** What the loader observes of the file system: whether
    [temperature_model.pkl] exists, what unpickling each of the three
    default files gives ([None] when [open] or [pickle.load] raises), what
    [os.listdir] does on the [models] directory ([None] when the path does
    not exist, the listing, or the exception it raises on a path that
    exists but cannot be listed), and what unpickling a file of that
    directory gives. *)
Record FileSystem : Type :=
  { exists_default_temperature : bool;
    default_temperature : option Regressor;
    default_rain : option Classifier;
    default_scaler : option Scaler;
    listdir_models : option (result (list string));
    load_temperature : string -> option Regressor;
    load_rain : string -> option Classifier;
    load_scaler : string -> option Scaler }.

Definition load_default (fs : FileSystem) (models : Dict.t Bundle)
  : Dict.t Bundle * bool :=
  if exists_default_temperature fs then
    match default_temperature fs, default_rain fs, default_scaler fs with
    | Some temp_model, Some rain_model, Some scaler_obj =>
        (Dict.set models default_city
           {| temperature := Some temp_model;
              rain := Some rain_model;
              scaler := Some scaler_obj |},
         true)
    | _, _, _ => (models, false)
    end
  else (models, false).

(** [if city not in city_models: city_models[city] = {}] *)
Definition ensure_city (city_models : Dict.t Bundle) (city : string)
  : Dict.t Bundle :=
  if Dict.mem city_models city then city_models
  else Dict.set city_models city empty_bundle.

(** [city_models[city][...] = ...] on the entry of [city]. *)
Definition update_city (city_models : Dict.t Bundle) (city : string)
    (f : Bundle -> Bundle) : Dict.t Bundle :=
  match Dict.get city_models city with
  | Some models => Dict.set city_models city (f models)
  | None => city_models
  end.

(** One iteration of [for file in model_files]. *)
Definition load_file (fs : FileSystem) (city_models : Dict.t Bundle)
    (file : string) : Dict.t Bundle :=
  if PyStr.endswith file "_temperature_model.pkl" then
    let city := PyStr.replace file "_temperature_model.pkl" EmptyString in
    let city_models := ensure_city city_models city in
    match load_temperature fs file with
    | Some obj =>
        update_city city_models city (fun models =>
          {| temperature := Some obj; rain := rain models; scaler := scaler models |})
    | None => city_models
    end
  else if PyStr.endswith file "_rain_model.pkl" then
    let city := PyStr.replace file "_rain_model.pkl" EmptyString in
    let city_models := ensure_city city_models city in
    match load_rain fs file with
    | Some obj =>
        update_city city_models city (fun models =>
          {| temperature := temperature models; rain := Some obj; scaler := scaler models |})
    | None => city_models
    end
  else if PyStr.endswith file "_scaler.pkl" then
    let city := PyStr.replace file "_scaler.pkl" EmptyString in
    let city_models := ensure_city city_models city in
    match load_scaler fs file with
    | Some obj =>
        update_city city_models city (fun models =>
          {| temperature := temperature models; rain := rain models; scaler := Some obj |})
    | None => city_models
    end
  else city_models.

(** [for city, models in city_models.items(): if all(...): self.models[city] = models] *)
Fixpoint add_complete (models : Dict.t Bundle) (items : Dict.t Bundle)
  : Dict.t Bundle :=
  match items with
  | [] => models
  | (city, city_bundle) :: rest =>
      if complete city_bundle
      then add_complete (Dict.set models city city_bundle) rest
      else add_complete models rest
  end.

Definition no_model_files : string :=
  "No model files found. Please run: python train_models.py --all".

(** The last block: [if not self.models: if not default_loaded: raise]. *)
Definition check_loaded (models : Dict.t Bundle) (default_loaded : bool)
  : result (Dict.t Bundle) :=
  match models with
  | [] => if negb default_loaded then Raise (FileNotFoundError no_model_files)
          else Ok models
  | _ :: _ => Ok models
  end.

(** [os.listdir] is called outside any [try]: what it raises leaves
    [_load_models]. *)
Definition _load_models (fs : FileSystem) : result (Dict.t Bundle) :=
  let '(models, default_loaded) := load_default fs [] in
  match listdir_models fs with
  | Some (Ok model_files) =>
      let city_models := fold_left (load_file fs) model_files [] in
      check_loaded (add_complete models city_models) default_loaded
  | Some (Raise e) => Raise e
  | None => check_loaded models default_loaded
  end.

(** ** Resolution ([ModelManager.get_models]) *)

(** The first block: [if normalized_city in self.models] with the
    completeness check.  [None] means control falls through. *)
Definition exact_match (models : Dict.t Bundle) (normalized_city : string)
  : option Bundle :=
  match Dict.get models normalized_city with
  | Some city_bundle => if complete city_bundle then Some city_bundle else None
  | None => None
  end.

(** The partial-match loop over [self.models.keys()].  [None] means the loop
    ran to its end; [self.models[model_city]] raises [KeyError] on a key
    that is not in the dictionary. *)
Fixpoint partial_match (models : Dict.t Bundle) (normalized_city : string)
    (keys : list string) : option (result Bundle) :=
  match keys with
  | [] => None
  | model_city :: rest =>
      if PyStr.contains model_city normalized_city
         || PyStr.contains normalized_city model_city
      then
        match Dict.get models model_city with
        | None => Some (Raise (KeyError model_city))
        | Some city_bundle =>
            if complete city_bundle then Some (Ok city_bundle)
            else partial_match models normalized_city rest
        end
      else partial_match models normalized_city rest
  end.

(** The fallback to [self.default_city]. *)
Definition default_fallback (models : Dict.t Bundle) : option Bundle :=
  match Dict.get models default_city with
  | Some city_bundle => if complete city_bundle then Some city_bundle else None
  | None => None
  end.

(** The last-resort loop over [self.models.keys()]. *)
Fixpoint last_resort (models : Dict.t Bundle) (keys : list string)
  : option (result Bundle) :=
  match keys with
  | [] => None
  | model_city :: rest =>
      match Dict.get models model_city with
      | None => Some (Raise (KeyError model_city))
      | Some city_bundle =>
          if complete city_bundle then Some (Ok city_bundle)
          else last_resort models rest
      end
  end.

Definition no_valid_models : string :=
  "No valid models available. Please run: python train_models.py --all".

(** Everything after [normalized_city] has been computed. *)
Definition resolve (models : Dict.t Bundle) (normalized_city : string)
  : result Bundle :=
  match exact_match models normalized_city with
  | Some city_bundle => Ok city_bundle
  | None =>
      match partial_match models normalized_city (Dict.keys models) with
      | Some outcome => outcome
      | None =>
          match default_fallback models with
          | Some city_bundle => Ok city_bundle
          | None =>
              match last_resort models (Dict.keys models) with
              | Some outcome => outcome
              | None => Raise (ValueError no_valid_models)
              end
          end
      end
  end.

Definition get_models (models : Dict.t Bundle) (city : option string)
  : result Bundle :=
  let city := if negb (PyStr.truthy city) then Some default_city else city in
  let normalized_city := _normalize_city_name city in
  resolve models normalized_city.

(** ** Request and response schemas *)

Module WeatherInput.
Record t : Type :=
  { humidity : float;
    pressure : float;
    wind_speed : float;
    clouds : float;
    month : Z;
    day : Z;
    city : option string }.
End WeatherInput.

Module WeatherPrediction.
Record t : Type :=
  { predicted_temperature : float;
    predicted_rain : string;
    rain_probability : float }.
End WeatherPrediction.

(** A row of the [predictions] table ([database.Prediction]). *)
Module Prediction.
Record t : Type :=
  { id : Z;
    timestamp : Z;
    city : option string;
    humidity : float;
    pressure : float;
    wind_speed : float;
    clouds : float;
    month : Z;
    day : Z;
    predicted_temperature : float;
    predicted_rain : string;
    rain_probability : float }.
End Prediction.

Inductive Response : Type :=
| Success (body : WeatherPrediction.t)
| HTTPException (status_code : Z) (detail : string)
| RequestValidationError (fields : list string).

(** ** Field constraints of [WeatherInput] *)

(** [Field(..., ge=lo, le=hi)] on a float field and on an int field: the
    list of offending field names, empty when the value passes. *)
Definition float_field (name : string) (ge le : Z) (value : float)
  : list string :=
  if float_ge value ge && float_le value le then [] else [name].

Definition int_field (name : string) (ge le : Z) (value : Z) : list string :=
  if ((ge <=? value) && (value <=? le))%Z then [] else [name].

Definition validation_errors (input_data : WeatherInput.t) : list string :=
  (float_field "humidity" 0 100 (WeatherInput.humidity input_data)
   ++ float_field "pressure" 900 1100 (WeatherInput.pressure input_data)
   ++ float_field "wind_speed" 0 100 (WeatherInput.wind_speed input_data)
   ++ float_field "clouds" 0 100 (WeatherInput.clouds input_data)
   ++ int_field "month" 1 12 (WeatherInput.month input_data)
   ++ int_field "day" 1 31 (WeatherInput.day input_data))%list.

(** ** The prediction store *)

Definition Table : Type := list Prediction.t.

(** What a request observes of the database session: the exception
    [db.commit()] raises, if any, and the clock behind the [timestamp]
    column default. *)
Record Session : Type :=
  { commit_error : option string;
    utcnow : Z }.

(** The integer primary key given to a new row: one more than the largest
    key in the table. *)
Definition next_id (db : Table) : Z :=
  (1 + fold_right Z.max 0 (map Prediction.id db))%Z.

(** The row as the database stores it: the record with its key and its
    timestamp filled in. *)
Definition stored_row (db : Table) (session : Session) (record : Prediction.t)
  : Prediction.t :=
  {| Prediction.id := next_id db;
     Prediction.timestamp := utcnow session;
     Prediction.city := Prediction.city record;
     Prediction.humidity := Prediction.humidity record;
     Prediction.pressure := Prediction.pressure record;
     Prediction.wind_speed := Prediction.wind_speed record;
     Prediction.clouds := Prediction.clouds record;
     Prediction.month := Prediction.month record;
     Prediction.day := Prediction.day record;
     Prediction.predicted_temperature := Prediction.predicted_temperature record;
     Prediction.predicted_rain := Prediction.predicted_rain record;
     Prediction.rain_probability := Prediction.rain_probability record |}.

(** [db.add(record); db.commit(); db.refresh(record)].  The record comes in
    with no key and no timestamp; [db.close()] in [get_db] discards what a
    failed commit left pending. *)
Definition add_and_commit (db : Table) (session : Session)
    (record : Prediction.t) : result Table :=
  match commit_error session with
  | Some msg => Raise (OtherException msg)
  | None => Ok (db ++ [stored_row db session record])%list
  end.

(** ** The [/predict] endpoint ([predict_weather]) *)

Definition bind {A B : Type} (r : result A) (k : A -> result B) : result B :=
  match r with
  | Ok a => k a
  | Raise e => Raise e
  end.

Notation "x <- r ;; k" := (bind r (fun x => k))
  (at level 61, r at next level, right associativity).

(** [models[key]] for the three keys the endpoint reads. *)
Definition getitem {A : Type} (entry : option A) (key : string) : result A :=
  match entry with
  | Some obj => Ok obj
  | None => Raise (KeyError key)
  end.

(** [pd.DataFrame(data_dict)[FEATURE_COLUMNS]]: the single row, in the order
    of [FEATURE_COLUMNS], which is also the order of [data_dict]. *)
Definition feature_row (input_data : WeatherInput.t) : list float :=
  [ WeatherInput.humidity input_data;
    WeatherInput.pressure input_data;
    WeatherInput.wind_speed input_data;
    WeatherInput.clouds input_data;
    float_of_int (WeatherInput.month input_data);
    float_of_int (WeatherInput.day input_data) ].

(** ["Yes" if rain_class == 1 else "No"] *)
Definition rain_label (rain_class : Z) : string :=
  if (rain_class =? 1)%Z then "Yes" else "No".

(** Scaling and the two model calls, with the label: the lines between the
    model lookup and the database write. *)
Definition infer (temperature_model : Regressor) (rain_model : Classifier)
    (scaler_obj : Scaler) (input_data : WeatherInput.t)
  : float * string * float :=
  let df := feature_row input_data in
  let df_scaled := transform scaler_obj df in
  let temp_prediction := predict temperature_model df_scaled in
  let rain_class := predict_class rain_model df_scaled in
  let rain_proba := predict_proba rain_model df_scaled in
  (temp_prediction, rain_label rain_class, rain_proba).

(** The [Prediction(...)] object handed to [db.add]; key and timestamp are
    filled in by the database. *)
Definition prediction_record (input_data : WeatherInput.t)
    (inference : float * string * float) : Prediction.t :=
  let '(temp_prediction, predicted_rain, rain_proba) := inference in
  {| Prediction.id := 0;
     Prediction.timestamp := 0;
     Prediction.city := WeatherInput.city input_data;
     Prediction.humidity := WeatherInput.humidity input_data;
     Prediction.pressure := WeatherInput.pressure input_data;
     Prediction.wind_speed := WeatherInput.wind_speed input_data;
     Prediction.clouds := WeatherInput.clouds input_data;
     Prediction.month := WeatherInput.month input_data;
     Prediction.day := WeatherInput.day input_data;
     Prediction.predicted_temperature := temp_prediction;
     Prediction.predicted_rain := predicted_rain;
     Prediction.rain_probability := rain_proba |}.

(** The [WeatherPrediction(...)] object returned to the client. *)
Definition response_body (inference : float * string * float)
  : WeatherPrediction.t :=
  let '(temp_prediction, predicted_rain, rain_proba) := inference in
  {| WeatherPrediction.predicted_temperature := round temp_prediction 2;
     WeatherPrediction.predicted_rain := predicted_rain;
     WeatherPrediction.rain_probability := round rain_proba 4 |}.

(** The body of the [try] block. *)
Definition predict_weather_body (models : Dict.t Bundle) (db : Table)
    (session : Session) (input_data : WeatherInput.t)
  : result (WeatherPrediction.t * Table) :=
  let city := WeatherInput.city input_data in
  city_bundle <- get_models models city ;;
  temperature_model <- getitem (temperature city_bundle) "temperature" ;;
  rain_model <- getitem (rain city_bundle) "rain" ;;
  scaler_obj <- getitem (scaler city_bundle) "scaler" ;;
  let inference := infer temperature_model rain_model scaler_obj input_data in
  db' <- add_and_commit db session (prediction_record input_data inference) ;;
  Ok (response_body inference, db').

(** The [except] clauses. *)
Definition handle_exception (e : exn) : Response :=
  match e with
  | ValueError msg =>
      HTTPException 404 ("Model error: " ++ msg ++ ". Please train models first.")
  | KeyError key =>
      HTTPException 500
        ("Model configuration error: Missing '" ++ key ++ "'. Please retrain models.")
  | FileNotFoundError error_message
  | OtherException error_message =>
      if PyStr.contains (PyStr.lower error_message) "no such column"
         || PyStr.contains (PyStr.lower error_message) "city"
      then
        HTTPException 500
          ("Database schema error. Please delete predictions.db and restart the server. Error: "
           ++ error_message)
      else HTTPException 500 ("Prediction error: " ++ error_message)
  end.

Definition predict_weather (models : Dict.t Bundle) (db : Table)
    (session : Session) (input_data : WeatherInput.t) : Response * Table :=
  match predict_weather_body models db session input_data with
  | Ok (body, db') => (Success body, db')
  | Raise e => (handle_exception e, db)
  end.

(** [POST /predict]: the request body is checked against the [WeatherInput]
    schema before the endpoint function is called. *)
Definition post_predict (models : Dict.t Bundle) (db : Table)
    (session : Session) (input_data : WeatherInput.t) : Response * Table :=
  match validation_errors input_data with
  | [] => predict_weather models db session input_data
  | fields => (RequestValidationError fields, db)
  end.

(** ** The [/stats] and [DELETE /history] endpoints *)

Record Statistics : Type :=
  { total_predictions : nat;
    rain_predictions : nat;
    no_rain_predictions : nat }.

(** [db.query(Prediction).filter(Prediction.predicted_rain == label).count()] *)
Definition count_where_rain (db : Table) (label : string) : nat :=
  List.length (filter (fun row => (Prediction.predicted_rain row =? label)%string) db).

(** The three counts of [get_statistics]. *)
Definition get_statistics (db : Table) : Statistics :=
  {| total_predictions := List.length db;
     rain_predictions := count_where_rain db "Yes";
     no_rain_predictions := count_where_rain db "No" |}.

(** [clear_history]: the number of rows deleted, or the error of a failed
    commit after [db.rollback()]. *)
Definition clear_history (db : Table) (session : Session)
  : result nat * Table :=
  match commit_error session with
  | Some msg => (Raise (OtherException msg), db)
  | None => (Ok (List.length db), [])
  end.

(** The table starts empty ([init_db] on a fresh file) and changes only
    through the two writing endpoints. *)
Inductive store_step : Table -> Table -> Prop :=
| step_predict models session input_data db response db' :
    post_predict models db session input_data = (response, db') ->
    store_step db db'
| step_clear session db outcome db' :
    clear_history db session = (outcome, db') ->
    store_step db db'.

Inductive reachable : Table -> Prop :=
| reachable_init : reachable []
| reachable_step db db' : reachable db -> store_step db db' -> reachable db'.

(** ** The specification's wording, for comparison with the code *)

(** Section 4.2 of the specification: the bundle registered under [key], if
    it is complete. *)
Definition registered_complete (models : Dict.t Bundle) (key : string)
  : option Bundle :=
  match Dict.get models key with
  | Some city_bundle => if complete city_bundle then Some city_bundle else None
  | None => None
  end.

(** The bundle of the first registered key that satisfies [p] and whose
    bundle is complete. *)
Definition first_complete_where (p : string -> bool) (models : Dict.t Bundle)
  : option Bundle :=
  match find (fun entry => p (fst entry) && complete (snd entry)) models with
  | Some entry => Some (snd entry)
  | None => None
  end.

(** A registered key is a substring of the requested key, or the other way
    round. *)
Definition substring_related (requested registered : string) : bool :=
  PyStr.contains registered requested || PyStr.contains requested registered.

(** The four steps of the resolution contract, in order. *)
Definition precedence (models : Dict.t Bundle) (requested : string)
  : list (option Bundle) :=
  [ registered_complete models requested;
    first_complete_where (substring_related requested) models;
    registered_complete models default_city;
    first_complete_where (fun _ => true) models ].

(** Stop at the first step that succeeds; fail when none does. *)
Fixpoint first_success (steps : list (option Bundle)) : result Bundle :=
  match steps with
  | [] => Raise (ValueError no_valid_models)
  | Some city_bundle :: _ => Ok city_bundle
  | None :: rest => first_success rest
  end.

(** Every registered bundle is complete. *)
Definition all_complete (models : Dict.t Bundle) : Prop :=
  forall key b, In (key, b) models -> complete b = true.

(** A float lies in the closed interval from [lo] to [hi]: it is finite
    and between the two bounds. *)
Definition in_range (lo hi : Z) (x : float) : Prop :=
  exists q, x = Finite q /\ (inject_Z lo <= q)%Q /\ (q <= inject_Z hi)%Q.

(** The lower-cased message contains [word]. *)
Definition mentions (message word : string) : Prop :=
  exists before after, PyStr.lower message = before ++ word ++ after.

(** A row carries one of the two rain labels. *)
Definition yes_or_no (row : Prediction.t) : Prop :=
  Prediction.predicted_rain row = "Yes" \/ Prediction.predicted_rain row = "No".

(** A string made of whitespace characters only. *)
Fixpoint only_whitespace (s : string) : bool :=
  match s with
  | EmptyString => true
  | String c rest => PyStr.isspace c && only_whitespace rest
  end.

(** Section 4.1 of the specification: runs of whitespace collapse to one
    separator.  [in_run] tells that the previous character was whitespace. *)
Fixpoint collapse_whitespace (s : string) (in_run : bool) : string :=
  match s with
  | EmptyString => EmptyString
  | String c rest =>
      if PyStr.isspace c
      then if in_run then collapse_whitespace rest true
           else String "_" (collapse_whitespace rest true)
      else String c (collapse_whitespace rest false)
  end.

(** The normalizer as section 4.1 words it: trim, lower-case, collapse
    internal whitespace, then the alias table. *)
Definition normalize_as_specified (raw : option string) : string :=
  match raw with
  | None => default_city
  | Some EmptyString => default_city
  | Some s =>
      city_mapping_get (collapse_whitespace (PyStr.lower (PyStr.strip s)) false)
  end.

(** One character of [s.replace(' ', '_')]. *)
Definition space_to_underscore (c : ascii) : ascii :=
  if Ascii.eqb c " " then "_"%char else c.

Fixpoint map_chars (f : ascii -> ascii) (s : string) : string :=
  match s with
  | EmptyString => EmptyString
  | String c rest => String (f c) (map_chars f rest)
  end.

(** ** Sample artifacts, registries and requests *)

Definition constant_regressor (value : float) : Regressor :=
  {| predict := fun _ => value |}.

Definition constant_classifier (class : Z) (proba : float) : Classifier :=
  {| predict_class := fun _ => class; predict_proba := fun _ => proba |}.

Definition identity_scaler : Scaler := {| transform := fun row => row |}.

Definition full_bundle (value : float) (class : Z) (proba : float) : Bundle :=
  {| temperature := Some (constant_regressor value);
     rain := Some (constant_classifier class proba);
     scaler := Some identity_scaler |}.

Definition kolkata_bundle : Bundle := full_bundle (Finite (30456 # 1000)) 1 (Finite (7 # 10)).
Definition delhi_bundle : Bundle := full_bundle (Finite (25 # 1)) 0 (Finite (2 # 10)).
Definition legacy_bundle : Bundle := full_bundle (Finite (20 # 1)) 0 (Finite (1 # 10)).
Definition unnamed_bundle : Bundle := full_bundle (Finite (15 # 1)) 2 (Finite (5 # 10)).

(** A bundle with two of its three entries. *)
Definition partial_bundle : Bundle :=
  {| temperature := Some (constant_regressor (Finite (10 # 1)));
     rain := Some (constant_classifier 0 (Finite 0));
     scaler := None |}.

Definition sample_models : Dict.t Bundle :=
  [ ("default", legacy_bundle); ("kolkata", kolkata_bundle); ("delhi", delhi_bundle) ].

(** A registry state holding an incomplete bundle. *)
Definition damaged_models : Dict.t Bundle :=
  [ ("pune", partial_bundle); ("delhi", delhi_bundle) ].

(** A models directory with all three files of kolkata, two of the three
    of pune, and three files whose city part is empty. *)
Definition sample_listing : list string :=
  [ "kolkata_temperature_model.pkl"; "pune_rain_model.pkl";
    "kolkata_rain_model.pkl"; "pune_temperature_model.pkl";
    "kolkata_scaler.pkl"; "readme.txt";
    "_temperature_model.pkl"; "_rain_model.pkl"; "_scaler.pkl" ].

Definition sample_fs : FileSystem :=
  {| exists_default_temperature := false;
     default_temperature := None;
     default_rain := None;
     default_scaler := None;
     listdir_models := Some (Ok sample_listing);
     load_temperature := fun file =>
       if (file =? "kolkata_temperature_model.pkl")%string
       then temperature kolkata_bundle
       else if (file =? "_temperature_model.pkl")%string
       then temperature unnamed_bundle
       else temperature partial_bundle;
     load_rain := fun file =>
       if (file =? "kolkata_rain_model.pkl")%string
       then rain kolkata_bundle
       else if (file =? "_rain_model.pkl")%string
       then rain unnamed_bundle
       else rain partial_bundle;
     load_scaler := fun file =>
       if (file =? "_scaler.pkl")%string then scaler unnamed_bundle
       else scaler kolkata_bundle |}.

(** The registry that loading [sample_fs] builds. *)
Definition loaded_sample : Dict.t Bundle :=
  [ ("kolkata", kolkata_bundle); (EmptyString, unnamed_bundle) ].

Definition sample_input : WeatherInput.t :=
  {| WeatherInput.humidity := Finite (75 # 1);
     WeatherInput.pressure := Finite (1010 # 1);
     WeatherInput.wind_speed := Finite (15 # 1);
     WeatherInput.clouds := Finite (60 # 1);
     WeatherInput.month := 7;
     WeatherInput.day := 15;
     WeatherInput.city := Some "Kolkata" |}.

Definition with_humidity (h : float) (i : WeatherInput.t) : WeatherInput.t :=
  {| WeatherInput.humidity := h;
     WeatherInput.pressure := WeatherInput.pressure i;
     WeatherInput.wind_speed := WeatherInput.wind_speed i;
     WeatherInput.clouds := WeatherInput.clouds i;
     WeatherInput.month := WeatherInput.month i;
     WeatherInput.day := WeatherInput.day i;
     WeatherInput.city := WeatherInput.city i |}.

Definition with_pressure (p : float) (i : WeatherInput.t) : WeatherInput.t :=
  {| WeatherInput.humidity := WeatherInput.humidity i;
     WeatherInput.pressure := p;
     WeatherInput.wind_speed := WeatherInput.wind_speed i;
     WeatherInput.clouds := WeatherInput.clouds i;
     WeatherInput.month := WeatherInput.month i;
     WeatherInput.day := WeatherInput.day i;
     WeatherInput.city := WeatherInput.city i |}.

Definition with_month (m : Z) (i : WeatherInput.t) : WeatherInput.t :=
  {| WeatherInput.humidity := WeatherInput.humidity i;
     WeatherInput.pressure := WeatherInput.pressure i;
     WeatherInput.wind_speed := WeatherInput.wind_speed i;
     WeatherInput.clouds := WeatherInput.clouds i;
     WeatherInput.month := m;
     WeatherInput.day := WeatherInput.day i;
     WeatherInput.city := WeatherInput.city i |}.

Definition with_day (d : Z) (i : WeatherInput.t) : WeatherInput.t :=
  {| WeatherInput.humidity := WeatherInput.humidity i;
     WeatherInput.pressure := WeatherInput.pressure i;
     WeatherInput.wind_speed := WeatherInput.wind_speed i;
     WeatherInput.clouds := WeatherInput.clouds i;
     WeatherInput.month := WeatherInput.month i;
     WeatherInput.day := d;
     WeatherInput.city := WeatherInput.city i |}.

Definition with_city (c : option string) (i : WeatherInput.t) : WeatherInput.t :=
  {| WeatherInput.humidity := WeatherInput.humidity i;
     WeatherInput.pressure := WeatherInput.pressure i;
     WeatherInput.wind_speed := WeatherInput.wind_speed i;
     WeatherInput.clouds := WeatherInput.clouds i;
     WeatherInput.month := WeatherInput.month i;
     WeatherInput.day := WeatherInput.day i;
     WeatherInput.city := c |}.

Definition healthy_session : Session := {| commit_error := None; utcnow := 1000 |}.
Definition locked_session : Session :=
  {| commit_error := Some "database is locked"; utcnow := 1000 |}.

(** ** The health endpoint ([health_check]) *)

(** The [available_cities] field: [list(model_manager.models.keys())]. *)
Definition health_check (models : Dict.t Bundle) : list string :=
  Dict.keys models.

(** ** The training side ([train_models.train_city_models]) *)

(** [city_normalized = city_name.lower().replace(' ', '_')] *)
Definition city_normalized (city_name : string) : string :=
  PyStr.replace (PyStr.lower city_name) " " "_".

(** The three files a training run writes into the models directory. *)
Definition trained_files (city_name : string) : list string :=
  [ city_normalized city_name ++ "_temperature_model.pkl";
    city_normalized city_name ++ "_rain_model.pkl";
    city_normalized city_name ++ "_scaler.pkl" ].

(** The per-city dictionary that the scan of the models directory builds,
    before complete cities are registered. *)
Definition scanned_cities (fs : FileSystem) : Dict.t Bundle :=
  match listdir_models fs with
  | Some (Ok model_files) => fold_left (load_file fs) model_files []
  | _ => []
  end.

(** ** Predicates on strings used in the statements *)

Fixpoint string_forall (p : ascii -> bool) (s : string) : bool :=
  match s with
  | EmptyString => true
  | String c rest => p c && string_forall p rest
  end.

(** Neither a space nor an upper-case letter. *)
Definition key_char (c : ascii) : bool :=
  negb (Ascii.eqb c " ") && negb (PyStr.isupper c).

Definition not_dot (c : ascii) : bool := negb (Ascii.eqb c ".").

(** Position of the first dot. *)
Fixpoint dot_index (s : string) : option nat :=
  match s with
  | EmptyString => None
  | String c rest =>
      if Ascii.eqb c "." then Some 0
      else match dot_index rest with
           | Some n => Some (S n)
           | None => None
           end
  end.

(** ** The particulate index ([calculate_aqi]) *)

(** [x <= y] on floats. *)
Definition float_leb (x y : float) : bool :=
  match x, y with
  | NaN, _ | _, NaN => false
  | Finite a, Finite b => Qle_bool a b
  | Infinity true, _ => true
  | _, Infinity false => true
  | _, _ => false
  end.

(** The doubles that the literals [35.4], [55.4] and [150.4] denote. *)
Definition literal_35_4 : float :=
  Finite (4982107087778611 # 140737488355328).
Definition literal_55_4 : float :=
  Finite (7796856854885171 # 140737488355328).
Definition literal_150_4 : float :=
  Finite (5291729562160333 # 35184372088832).

Record AqiReading : Type :=
  { aqi : option float;
    category : string }.

Definition calculate_aqi (pm25 pm10 : option float) : AqiReading :=
  match pm25 with
  | Some value =>
      if float_leb value (Finite 12) then
        {| aqi := pm25; category := "Good" |}
      else if float_leb value literal_35_4 then
        {| aqi := pm25; category := "Moderate" |}
      else if float_leb value literal_55_4 then
        {| aqi := pm25; category := "Unhealthy for Sensitive Groups" |}
      else if float_leb value literal_150_4 then
        {| aqi := pm25; category := "Unhealthy" |}
      else
        {| aqi := pm25; category := "Very Unhealthy" |}
  | None =>
      match pm10 with
      | Some _ => {| aqi := pm10; category := "Moderate" |}
      | None => {| aqi := None; category := "Unknown" |}
      end
  end.

(** The categories of [calculate_aqi] from the mildest to the worst. *)
Definition severity (label : string) : nat :=
  if (label =? "Good")%string then 0
  else if (label =? "Moderate")%string then 1
  else if (label =? "Unhealthy for Sensitive Groups")%string then 2
  else if (label =? "Unhealthy")%string then 3
  else 4.

(** The characters of [s] in reverse order, put in front of [acc]. *)
Fixpoint reverse_onto (s acc : string) : string :=
  match s with
  | EmptyString => acc
  | String c rest => reverse_onto rest (String c acc)
  end.

(** The city [city] has the entry [key] in the dictionary that the
    directory scan builds. *)
Definition scanned_key (d : Dict.t Bundle) (city key : string) : Prop :=
  exists b, Dict.get d city = Some b /\ has_key b key = true.

(** A file system with the three root files, and a models directory that
    holds the three files of the cities default and delhi. *)
Definition legacy_fs : FileSystem :=
  {| exists_default_temperature := true;
     default_temperature := temperature legacy_bundle;
     default_rain := rain legacy_bundle;
     default_scaler := scaler legacy_bundle;
     listdir_models :=
       Some (Ok [ "delhi_scaler.pkl"; "default_rain_model.pkl";
                  "delhi_temperature_model.pkl"; "default_scaler.pkl";
                  "delhi_rain_model.pkl"; "default_temperature_model.pkl" ]);
     load_temperature := fun file =>
       if PyStr.contains file "delhi" then temperature delhi_bundle
       else temperature kolkata_bundle;
     load_rain := fun file =>
       if PyStr.contains file "delhi" then rain delhi_bundle
       else rain kolkata_bundle;
     load_scaler := fun file =>
       if PyStr.contains file "delhi" then scaler delhi_bundle
       else scaler kolkata_bundle |}.

(** A models directory as a training run for New Delhi leaves it, with
    one unrelated file. *)
Definition trained_fs : FileSystem :=
  {| exists_default_temperature := false;
     default_temperature := None;
     default_rain := None;
     default_scaler := None;
     listdir_models := Some (Ok ("notes.txt" :: trained_files "New Delhi"));
     load_temperature := fun _ => temperature delhi_bundle;
     load_rain := fun _ => rain delhi_bundle;
     load_scaler := fun _ => scaler delhi_bundle |}.

(** ** Requests served in sequence *)




(** The three root files load, and [models] exists but is a regular
    file, so that listing it raises. *)
Definition unlistable_fs : FileSystem :=
  {| exists_default_temperature := true;
     default_temperature := temperature legacy_bundle;
     default_rain := rain legacy_bundle;
     default_scaler := scaler legacy_bundle;
     listdir_models :=
       Some (Raise (OtherException "[Errno 20] Not a directory: 'models'"));
     load_temperature := fun _ => None;
     load_rain := fun _ => None;
     load_scaler := fun _ => None |}.

(** * Properties *)

(** ** Python string methods *)

Section StringFacts.

Ltac by_cases_on_char c :=
  destruct c as [[] [] [] [] [] [] [] []]; vm_compute;
  try reflexivity; try discriminate; auto.

Lemma lower_char_isspace c :
  PyStr.isspace c = true -> PyStr.lower_char c = c.
Proof. by_cases_on_char c. Qed.

Lemma lower_char_idempotent c :
  PyStr.lower_char (PyStr.lower_char c) = PyStr.lower_char c.
Proof. by_cases_on_char c. Qed.

Lemma lower_idempotent s : PyStr.lower (PyStr.lower s) = PyStr.lower s.
Proof.
  induction s as [|c s IH]; simpl; [reflexivity|].
  now rewrite lower_char_idempotent, IH.
Qed.

Lemma lower_append a b :
  PyStr.lower (a ++ b) = PyStr.lower a ++ PyStr.lower b.
Proof. induction a as [|c a IH]; simpl; [reflexivity | now rewrite IH]. Qed.

Lemma lower_only_whitespace s :
  only_whitespace s = true -> PyStr.lower s = s.
Proof.
  induction s as [|c s IH]; simpl; [reflexivity|].
  intros H. apply andb_true_iff in H as [Hc Hs].
  now rewrite lower_char_isspace, IH.
Qed.

Lemma lower_nonempty s : s <> EmptyString -> PyStr.lower s <> EmptyString.
Proof. destruct s; simpl; [congruence | discriminate]. Qed.

Lemma lstrip_only_whitespace s :
  only_whitespace s = true -> PyStr.lstrip s = EmptyString.
Proof.
  induction s as [|c s IH]; simpl; [reflexivity|].
  intros H. apply andb_true_iff in H as [Hc Hs]. now rewrite Hc, IH.
Qed.

Lemma rstrip_only_whitespace s :
  only_whitespace s = true -> PyStr.rstrip s = EmptyString.
Proof.
  induction s as [|c s IH]; simpl; [reflexivity|].
  intros H. apply andb_true_iff in H as [Hc Hs]. now rewrite IH, Hc.
Qed.

Lemma lstrip_padding pad s :
  only_whitespace pad = true -> PyStr.lstrip (pad ++ s) = PyStr.lstrip s.
Proof.
  induction pad as [|c pad IH]; simpl; [reflexivity|].
  intros H. apply andb_true_iff in H as [Hc Hs]. now rewrite Hc, IH.
Qed.

Lemma rstrip_padding s pad :
  only_whitespace pad = true -> PyStr.rstrip (s ++ pad) = PyStr.rstrip s.
Proof.
  intros H. induction s as [|c s IH]; simpl.
  - now apply rstrip_only_whitespace.
  - now rewrite IH.
Qed.

Lemma strip_right_padding s pad :
  only_whitespace pad = true ->
  PyStr.strip (s ++ pad) = PyStr.strip s.
Proof.
  intros H. unfold PyStr.strip. induction s as [|c s IH].
  - simpl. now rewrite lstrip_only_whitespace.
  - simpl. destruct (PyStr.isspace c); [exact IH|].
    now apply (rstrip_padding (String c s)).
Qed.

Lemma strip_padding left s right :
  only_whitespace left = true -> only_whitespace right = true ->
  PyStr.strip (left ++ s ++ right) = PyStr.strip s.
Proof.
  intros Hl Hr. rewrite <- (strip_right_padding s right Hr).
  unfold PyStr.strip. now rewrite lstrip_padding.
Qed.

Lemma prefix_empty s : prefix EmptyString s = true.
Proof. now destruct s. Qed.

Lemma contains_empty s : PyStr.contains s EmptyString = true.
Proof. destruct s; reflexivity. Qed.

(** Replacing the space by the underscore works character by character. *)
Lemma replace_space_by_char s :
  PyStr.replace s " " "_" = map_chars space_to_underscore s.
Proof.
  unfold PyStr.replace. induction s as [|c s IH]; [reflexivity|].
  cbn [PyStr.replace_from map_chars prefix]. unfold space_to_underscore at 1.
  destruct (ascii_dec " " c) as [<-|Hne].
  - rewrite prefix_empty. cbn. now rewrite IH.
  - rewrite IH. destruct (Ascii.eqb_spec c " ") as [->|_]; [now elim Hne | reflexivity].
Qed.

Lemma prefix_split a t : prefix a t = true -> exists rest, t = a ++ rest.
Proof.
  revert t. induction a as [|c a IH]; intros t H.
  - now exists t.
  - destruct t as [|c' t]; cbn in H; [discriminate|].
    destruct (ascii_dec c c') as [<-|]; [|discriminate].
    destruct (IH t H) as [rest ->]. now exists rest.
Qed.

Lemma prefix_append a b : prefix a (a ++ b) = true.
Proof.
  induction a as [|c a IH]; cbn; [apply prefix_empty|].
  destruct (ascii_dec c c); [exact IH | contradiction].
Qed.

Lemma contains_here s sub : prefix sub s = true -> PyStr.contains s sub = true.
Proof. intros H. destruct s; cbn [PyStr.contains]; now rewrite H. Qed.

Lemma contains_append pre sub post :
  PyStr.contains (pre ++ sub ++ post) sub = true.
Proof.
  induction pre as [|c pre IH].
  - cbn [append]. apply contains_here. apply prefix_append.
  - cbn [append PyStr.contains]. rewrite IH. apply orb_true_r.
Qed.

Lemma contains_split s sub :
  PyStr.contains s sub = true -> exists pre post, s = pre ++ sub ++ post.
Proof.
  induction s as [|c s IH]; cbn [PyStr.contains]; intros H.
  - rewrite orb_false_r in H. apply prefix_split in H as [rest ->].
    now exists EmptyString, rest.
  - apply orb_true_iff in H as [H|H].
    + apply prefix_split in H as [rest ->]. now exists EmptyString, rest.
    + destruct (IH H) as (pre & post & ->). now exists (String c pre), post.
Qed.

(** [sub in s] holds exactly when [s] is [sub] with something before and
    something after. *)
Lemma contains_iff s sub :
  PyStr.contains s sub = true <-> exists pre post, s = pre ++ sub ++ post.
Proof.
  split; [apply contains_split|].
  intros (pre & post & ->). apply contains_append.
Qed.

Lemma map_chars_length f s : length (map_chars f s) = length s.
Proof. induction s as [|c s IH]; simpl; [reflexivity | now rewrite IH]. Qed.

End StringFacts.

(** ** Normalization *)

Lemma normalize_falsy city :
  PyStr.truthy city = false -> _normalize_city_name city = default_city.
Proof.
  destruct city as [s|]; [|reflexivity].
  unfold _normalize_city_name. now intros ->.
Qed.

Lemma normalize_truthy s :
  s <> EmptyString ->
  _normalize_city_name (Some s)
  = city_mapping_get (map_chars space_to_underscore (PyStr.strip (PyStr.lower s))).
Proof.
  intros Hs. unfold _normalize_city_name, PyStr.truthy.
  destruct (String.eqb_spec s EmptyString) as [->|_]; [now elim Hs|].
  cbn [negb]. now rewrite replace_space_by_char.
Qed.

Lemma normalize_only_whitespace s :
  s <> EmptyString -> only_whitespace s = true -> _normalize_city_name (Some s) = EmptyString.
Proof.
  intros Hs Hw. rewrite normalize_truthy by assumption.
  rewrite lower_only_whitespace by assumption.
  unfold PyStr.strip. rewrite lstrip_only_whitespace by assumption.
  reflexivity.
Qed.

Lemma city_mapping_get_other key :
  key <> "bangalore" -> key <> "bombay" -> key <> "madras" ->
  city_mapping_get key = key.
Proof.
  intros H1 H2 H3. unfold city_mapping_get, city_mapping. cbn [Dict.get].
  destruct (String.eqb_spec "bangalore" key); [congruence|].
  destruct (String.eqb_spec "bombay" key); [congruence|].
  destruct (String.eqb_spec "madras" key); [congruence|].
  reflexivity.
Qed.

Lemma append_nonempty a s b : s <> EmptyString -> a ++ s ++ b <> EmptyString.
Proof.
  intros Hs H. destruct a; simpl in H; [|discriminate].
  destruct s; [now elim Hs | discriminate].
Qed.

Lemma normalize_padding left s right :
  s <> EmptyString -> only_whitespace left = true -> only_whitespace right = true ->
  _normalize_city_name (Some (left ++ s ++ right)) = _normalize_city_name (Some s).
Proof.
  intros Hs Hl Hr.
  rewrite !normalize_truthy by (try apply append_nonempty; assumption).
  rewrite !lower_append, (lower_only_whitespace left), (lower_only_whitespace right)
    by assumption.
  now rewrite strip_padding.
Qed.

Lemma normalize_case_insensitive s :
  _normalize_city_name (Some (PyStr.lower s)) = _normalize_city_name (Some s).
Proof.
  destruct s as [|c s]; [reflexivity|].
  rewrite !normalize_truthy by (simpl; discriminate).
  now rewrite lower_idempotent.
Qed.

(** C3 (as amended).  Normalization is a total function.  An absent or empty
    city gives the reserved key [default].  Every other string is
    lower-cased, stripped of surrounding whitespace, and has each space
    character replaced by one underscore, character by character, so the
    length is kept and runs of spaces are not collapsed; the alias table
    (bangalore, bombay, madras) is applied last and any other key passes
    through unchanged.  Changing the letter case of a string does not
    change its key, and neither does whitespace added around a non-empty
    string, as with ["  Kolkata "] and ["kolkata"]; whitespace around the
    empty string does: a non-empty string of whitespace gets the empty
    key, not [default]. *)
Theorem normalize_city_name_behaviour :
  forall s left right : string,
    only_whitespace left = true -> only_whitespace right = true ->
    _normalize_city_name None = "default"
    /\ _normalize_city_name (Some EmptyString) = "default"
    /\ (s <> EmptyString ->
        _normalize_city_name (Some s)
        = city_mapping_get
            (map_chars space_to_underscore (PyStr.strip (PyStr.lower s))))
    /\ length (map_chars space_to_underscore (PyStr.strip (PyStr.lower s)))
       = length (PyStr.strip (PyStr.lower s))
    /\ (s <> EmptyString ->
        _normalize_city_name (Some (left ++ s ++ right))
        = _normalize_city_name (Some s))
    /\ (left <> EmptyString -> _normalize_city_name (Some left) = EmptyString)
    /\ _normalize_city_name (Some (PyStr.lower s)) = _normalize_city_name (Some s)
    /\ city_mapping_get "bangalore" = "bengaluru"
    /\ city_mapping_get "bombay" = "mumbai"
    /\ city_mapping_get "madras" = "chennai"
    /\ (forall key, key <> "bangalore" -> key <> "bombay" -> key <> "madras" ->
        city_mapping_get key = key)
    /\ _normalize_city_name (Some "  Kolkata ")
       = _normalize_city_name (Some "kolkata").
Proof.
  intros s left right Hl Hr.
  split; [reflexivity|]. split; [reflexivity|].
  split; [intros Hs; now apply normalize_truthy|].
  split; [apply map_chars_length|].
  split; [intros Hs; now apply normalize_padding|].
  split; [intros Hne; now apply normalize_only_whitespace|].
  split; [apply normalize_case_insensitive|].
  split; [reflexivity|]. split; [reflexivity|]. split; [reflexivity|].
  split; [apply city_mapping_get_other | reflexivity].
Qed.

Lemma normalize_city_name_behaviour_witness :
  _normalize_city_name (Some "New Delhi") = "new_delhi"
  /\ _normalize_city_name (Some "  New Delhi ") = _normalize_city_name (Some "New Delhi")
  /\ _normalize_city_name (Some "  ") = EmptyString.
Proof.
  assert (H : "New Delhi" <> EmptyString) by discriminate.
  assert (Hpad : "  " <> EmptyString) by discriminate.
  destruct (normalize_city_name_behaviour "New Delhi" "  " " " eq_refl eq_refl)
    as (_ & _ & Hkey & _ & Hsame & Hblank & _).
  split; [rewrite (Hkey H); reflexivity|].
  split; [exact (Hsame H) | exact (Hblank Hpad)].
Defined.

(** C3 (as stated) fails: two spaces inside a name give two underscores,
    where collapsing whitespace to a single separator gives one. *)
Lemma normalize_keeps_space_runs :
  _normalize_city_name (Some "New  York") = "new__york"
  /\ normalize_as_specified (Some "New  York") = "new_york"
  /\ _normalize_city_name (Some "New  York")
     <> normalize_as_specified (Some "New  York").
Proof. repeat split; try reflexivity. vm_compute. discriminate. Qed.

(** ** Dictionaries and completeness *)

Lemma complete_iff b :
  complete b = true
  <-> temperature b <> None /\ rain b <> None /\ scaler b <> None.
Proof.
  unfold complete. cbn.
  destruct (temperature b), (rain b), (scaler b); cbn;
    intuition (discriminate || congruence).
Qed.

Lemma get_of_wf {V : Type} (d : Dict.t V) k v :
  Dict.wf d -> In (k, v) d -> Dict.get d k = Some v.
Proof.
  unfold Dict.wf, Dict.keys.
  induction d as [|[k' v'] d IH]; simpl; intros Hwf Hin; [contradiction|].
  inversion Hwf as [|? ? Hnotin Hrest]; subst.
  destruct Hin as [Heq|Hin].
  - inversion Heq; subst. now rewrite String.eqb_refl.
  - destruct (String.eqb_spec k' k) as [->|_].
    + elim Hnotin. apply in_map_iff. now exists (k, v).
    + now apply IH.
Qed.

Lemma get_in {V : Type} (d : Dict.t V) k v :
  Dict.get d k = Some v -> In (k, v) d.
Proof.
  induction d as [|[k' v'] d IH]; simpl; [discriminate|].
  destruct (String.eqb_spec k' k) as [->|_]; intros H.
  - inversion H; subst. now left.
  - right. now apply IH.
Qed.

Lemma set_in {V : Type} (d : Dict.t V) k v k0 v0 :
  In (k0, v0) (Dict.set d k v) -> (k0, v0) = (k, v) \/ In (k0, v0) d.
Proof.
  induction d as [|[k' v'] d IH]; simpl.
  - intros [H|[]]; left; congruence.
  - destruct (String.eqb_spec k' k) as [->|_]; simpl.
    + intros [H|H]; [left; congruence | right; now right].
    + intros [H|H]; [right; now left|].
      destruct (IH H) as [?|?]; [now left | right; now right].
Qed.

Lemma set_keys {V : Type} (d : Dict.t V) k v :
  Dict.keys (Dict.set d k v)
  = if Dict.mem d k then Dict.keys d else (Dict.keys d ++ [k])%list.
Proof.
  unfold Dict.mem, Dict.keys.
  induction d as [|[k' v'] d IH]; simpl; [reflexivity|].
  destruct (String.eqb_spec k' k) as [->|_]; simpl; [reflexivity|].
  rewrite IH. now destruct (Dict.get d k).
Qed.

Lemma mem_false_not_in {V : Type} (d : Dict.t V) k :
  Dict.mem d k = false -> ~ In k (Dict.keys d).
Proof.
  unfold Dict.mem, Dict.keys.
  induction d as [|[k' v'] d IH]; simpl; [tauto|].
  destruct (String.eqb_spec k' k) as [->|Hne]; [discriminate|].
  intros H [Heq|Hin]; [congruence | now apply IH].
Qed.

Lemma set_wf {V : Type} (d : Dict.t V) k v :
  Dict.wf d -> Dict.wf (Dict.set d k v).
Proof.
  unfold Dict.wf. intros Hwf. rewrite set_keys.
  destruct (Dict.mem d k) eqn:Hmem; [assumption|].
  apply NoDup_app; [assumption | repeat constructor; simpl; tauto |].
  intros x Hx [Heq|[]]. subst x. now apply (mem_false_not_in d k).
Qed.

(** ** Resolution *)

Lemma get_models_resolve models city :
  get_models models city = resolve models (_normalize_city_name city).
Proof.
  unfold get_models.
  destruct (PyStr.truthy city) eqn:Ht; cbn [negb]; [reflexivity|].
  now rewrite (normalize_falsy city Ht).
Qed.

(** On a dictionary that agrees with [items], the partial-match loop over
    the keys of [items] finds the first entry that is related to the
    requested key and complete. *)
Lemma partial_match_first models requested items :
  (forall k v, In (k, v) items -> Dict.get models k = Some v) ->
  partial_match models requested (Dict.keys items)
  = option_map Ok (first_complete_where (substring_related requested) items).
Proof.
  unfold first_complete_where, substring_related.
  induction items as [|[k v] items IH]; intros Hget; [reflexivity|].
  cbn [Dict.keys map fst partial_match find snd].
  rewrite (Hget k v (or_introl eq_refl)).
  assert (Hrest : forall k0 v0, In (k0, v0) items -> Dict.get models k0 = Some v0)
    by (intros; apply Hget; now right).
  specialize (IH Hrest). unfold Dict.keys in IH.
  destruct (PyStr.contains k requested || PyStr.contains requested k);
    destruct (complete v); cbn [andb option_map]; try exact IH; reflexivity.
Qed.

Lemma last_resort_first models items :
  (forall k v, In (k, v) items -> Dict.get models k = Some v) ->
  last_resort models (Dict.keys items)
  = option_map Ok (first_complete_where (fun _ => true) items).
Proof.
  unfold first_complete_where.
  induction items as [|[k v] items IH]; intros Hget; [reflexivity|].
  cbn [Dict.keys map fst last_resort find snd].
  rewrite (Hget k v (or_introl eq_refl)).
  assert (Hrest : forall k0 v0, In (k0, v0) items -> Dict.get models k0 = Some v0)
    by (intros; apply Hget; now right).
  specialize (IH Hrest). unfold Dict.keys in IH.
  destruct (complete v); cbn [andb option_map]; try exact IH; reflexivity.
Qed.

Lemma resolve_precedence models requested :
  Dict.wf models ->
  resolve models requested = first_success (precedence models requested).
Proof.
  intros Hwf. unfold resolve, precedence.
  rewrite (partial_match_first models requested models),
          (last_resort_first models models)
    by (intros; now apply get_of_wf).
  change (exact_match models requested)
    with (registered_complete models requested).
  change (default_fallback models)
    with (registered_complete models default_city).
  cbn [first_success].
  destruct (registered_complete models requested); [reflexivity|].
  destruct (first_complete_where (substring_related requested) models);
    [reflexivity|].
  destruct (registered_complete models default_city); [reflexivity|].
  destruct (first_complete_where (fun _ => true) models); reflexivity.
Qed.

Lemma first_complete_all_complete p (models : Dict.t Bundle) :
  all_complete models ->
  first_complete_where p models
  = option_map snd (find (fun entry => p (fst entry)) models).
Proof.
  unfold first_complete_where, all_complete.
  induction models as [|[k v] models IH]; intros Hall; [reflexivity|].
  cbn [find fst snd]. rewrite (Hall k v (or_introl eq_refl)), andb_true_r.
  destruct (p k); [reflexivity|].
  apply IH. intros key b Hin. apply (Hall key). now right.
Qed.

(** C1.  For every registry and every request, [get_models] returns what
    the five-step precedence returns on the normalized key: the complete
    bundle registered under that key; else the complete bundle of the first
    registered key that is a substring of the key or contains it; else the
    complete bundle registered under [default]; else the first registered
    complete bundle; else the no-models-available error.  On a registry
    whose bundles are all complete, as loading builds it, the second step
    is the bundle of the first registered key related to the request by
    substring. *)
Theorem get_models_precedence :
  forall (models : Dict.t Bundle) (city : option string),
    Dict.wf models ->
    get_models models city
    = first_success (precedence models (_normalize_city_name city))
    /\ (all_complete models ->
        first_complete_where
          (substring_related (_normalize_city_name city)) models
        = option_map snd
            (find (fun entry =>
                     substring_related (_normalize_city_name city) (fst entry))
                  models)).
Proof.
  intros models city Hwf. split.
  - rewrite get_models_resolve. now apply resolve_precedence.
  - apply first_complete_all_complete.
Qed.

Lemma sample_models_wf : Dict.wf sample_models.
Proof.
  unfold Dict.wf. cbn.
  repeat constructor; cbn; intuition discriminate.
Qed.

Lemma get_models_precedence_witness :
  Dict.wf sample_models
  /\ get_models sample_models (Some "North Delhi")
     = first_success (precedence sample_models "north_delhi")
  /\ first_success (precedence sample_models "north_delhi") = Ok delhi_bundle.
Proof.
  split; [exact sample_models_wf|].
  split; [exact (proj1 (get_models_precedence sample_models (Some "North Delhi")
                          sample_models_wf)) | reflexivity].
Defined.

Lemma first_complete_where_ext p q (models : Dict.t Bundle) :
  (forall k, p k = q k) ->
  first_complete_where p models = first_complete_where q models.
Proof.
  intros Hpq. unfold first_complete_where.
  induction models as [|[k v] models IH]; [reflexivity|].
  cbn [find fst snd]. rewrite Hpq.
  destruct (q k && complete v); [reflexivity | exact IH].
Qed.

Lemma first_complete_none_registered (models : Dict.t Bundle) key :
  first_complete_where (fun _ => true) models = None ->
  registered_complete models key = None.
Proof.
  unfold first_complete_where, registered_complete. intros Hnone.
  destruct (find _ models) eqn:Hfind; [discriminate|].
  destruct (Dict.get models key) as [b|] eqn:Hget; [|reflexivity].
  apply get_in in Hget.
  pose proof (find_none _ _ Hfind _ Hget) as Hfalse.
  change (complete b = false) in Hfalse.
  now rewrite Hfalse.
Qed.

(** C9 (as amended).  A non-empty city string made of whitespace only is
    normalized to the empty key, not to [default].  Resolution of that
    request returns the complete bundle registered under the empty key when
    there is one, and otherwise the first registered complete bundle, which
    the partial-match loop finds because the empty key is a substring of
    every registered key; the [default] fallback is not consulted, and
    resolution fails only when no registered bundle is complete. *)
Theorem whitespace_city_resolution :
  forall (models : Dict.t Bundle) (city : string),
    Dict.wf models -> city <> EmptyString -> only_whitespace city = true ->
    _normalize_city_name (Some city) = EmptyString
    /\ _normalize_city_name (Some city) <> default_city
    /\ partial_match models EmptyString (Dict.keys models)
       = option_map Ok (first_complete_where (fun _ => true) models)
    /\ get_models models (Some city)
       = first_success [ registered_complete models EmptyString;
                         first_complete_where (fun _ => true) models ].
Proof.
  intros models city Hwf Hne Hws.
  assert (Hkey : _normalize_city_name (Some city) = EmptyString)
    by now apply normalize_only_whitespace.
  assert (Hrel : first_complete_where (substring_related EmptyString) models
                 = first_complete_where (fun _ => true) models).
  { apply first_complete_where_ext. intros k. unfold substring_related.
    now rewrite contains_empty. }
  repeat split.
  - exact Hkey.
  - rewrite Hkey. discriminate.
  - rewrite (partial_match_first models EmptyString models)
      by (intros; now apply get_of_wf).
    now rewrite Hrel.
  - rewrite get_models_resolve, resolve_precedence by assumption.
    rewrite Hkey. unfold precedence. rewrite Hrel. cbn [first_success].
    destruct (registered_complete models EmptyString); [reflexivity|].
    destruct (first_complete_where (fun _ => true) models) eqn:Hfirst;
      [reflexivity|].
    now rewrite (first_complete_none_registered models default_city Hfirst).
Qed.

Lemma whitespace_city_resolution_witness :
  _normalize_city_name (Some "   ") = EmptyString
  /\ get_models sample_models (Some "   ") = Ok legacy_bundle.
Proof.
  assert (Hne : "   " <> EmptyString) by discriminate.
  destruct (whitespace_city_resolution sample_models "   "
              sample_models_wf Hne eq_refl) as (Hkey & _ & _ & Hget).
  split; [exact Hkey | rewrite Hget; reflexivity].
Defined.

(** C9 (as stated) fails on a registry that holds a bundle under the empty
    key: loading [sample_fs] registers kolkata first and the empty key
    second, and a whitespace-only city then gets the bundle of the empty key
    by exact match, not the first registered complete bundle. *)
Lemma whitespace_city_exact_match_on_empty_key :
  _load_models sample_fs = Ok loaded_sample
  /\ first_complete_where (fun _ => true)
       loaded_sample = Some kolkata_bundle
  /\ get_models loaded_sample (Some "   ")
     = Ok unnamed_bundle
  /\ unnamed_bundle <> kolkata_bundle.
Proof.
  repeat split; try reflexivity.
  intros H.
  apply (f_equal (fun b => option_map (fun r => predict_class r []) (rain b))) in H.
  discriminate H.
Qed.

(** ** Loading registers complete bundles only *)

Lemma set_all_complete models key b :
  all_complete models -> complete b = true ->
  all_complete (Dict.set models key b).
Proof.
  intros Hall Hb k0 b0 Hin.
  destruct (set_in _ _ _ _ _ Hin) as [Heq|Hold].
  - now inversion Heq; subst.
  - now apply (Hall k0).
Qed.

Lemma add_complete_all_complete items :
  forall models, all_complete models -> all_complete (add_complete models items).
Proof.
  induction items as [|[city b] items IH]; intros models Hall; [exact Hall|].
  cbn [add_complete]. destruct (complete b) eqn:Hb.
  - apply IH. now apply set_all_complete.
  - now apply IH.
Qed.

Lemma add_complete_wf items :
  forall models, Dict.wf models -> Dict.wf (add_complete models items).
Proof.
  induction items as [|[city b] items IH]; intros models Hwf; [exact Hwf|].
  cbn [add_complete]. destruct (complete b); apply IH; [now apply set_wf | exact Hwf].
Qed.

Lemma load_default_all_complete fs :
  all_complete (fst (load_default fs [])).
Proof.
  unfold load_default, all_complete.
  destruct (exists_default_temperature fs); [|now intros key bundle Hin].
  destruct (default_temperature fs), (default_rain fs), (default_scaler fs);
    cbn; intros key bundle Hin; try contradiction.
  destruct Hin as [Heq|[]]. now inversion Heq.
Qed.

Lemma load_default_wf fs : Dict.wf (fst (load_default fs [])).
Proof.
  unfold load_default, Dict.wf.
  destruct (exists_default_temperature fs); [|constructor].
  destruct (default_temperature fs), (default_rain fs), (default_scaler fs);
    cbn; repeat constructor; intros [].
Qed.

Lemma set_nonempty {V : Type} (d : Dict.t V) k v : Dict.set d k v <> [].
Proof.
  destruct d as [|[k' v'] d]; cbn; [discriminate|].
  destruct (k' =? k)%string; discriminate.
Qed.

Lemma add_complete_nonempty items :
  forall models, models <> [] -> add_complete models items <> [].
Proof.
  induction items as [|[city b] items IH]; intros models Hne; [exact Hne|].
  cbn [add_complete]. destruct (complete b); apply IH;
    [apply set_nonempty | exact Hne].
Qed.

Lemma load_default_flag fs :
  snd (load_default fs []) = true -> fst (load_default fs []) <> [].
Proof.
  unfold load_default.
  destruct (exists_default_temperature fs); [|discriminate].
  destruct (default_temperature fs), (default_rain fs), (default_scaler fs);
    cbn; discriminate.
Qed.

Lemma check_loaded_ok (built models : Dict.t Bundle) flag :
  (flag = true -> built <> []) ->
  check_loaded built flag = Ok models -> models = built /\ built <> [].
Proof.
  intros Hflag. unfold check_loaded. destruct built as [|entry rest].
  - destruct flag; cbn; [now elim (Hflag eq_refl) | discriminate].
  - intros H. inversion H. split; [reflexivity | discriminate].
Qed.

Lemma load_models_invariant fs models :
  _load_models fs = Ok models ->
  all_complete models /\ Dict.wf models /\ models <> [].
Proof.
  unfold _load_models.
  pose proof (load_default_all_complete fs) as Hall.
  pose proof (load_default_wf fs) as Hwf.
  pose proof (load_default_flag fs) as Hflag.
  destruct (load_default fs []) as [base default_loaded]. cbn [fst snd] in *.
  destruct (listdir_models fs) as [[model_files|e]|]; [| discriminate |].
  - intros Hload. apply check_loaded_ok in Hload as [-> Hne].
    + repeat split; [now apply add_complete_all_complete
                    | now apply add_complete_wf | exact Hne].
    + intros Hd. apply add_complete_nonempty. now apply Hflag.
  - intros Hload. apply check_loaded_ok in Hload as [-> Hne];
      [now repeat split | exact Hflag].
Qed.

(** ** Resolution returns complete bundles only *)

Lemma partial_match_complete models requested keys b :
  partial_match models requested keys = Some (Ok b) -> complete b = true.
Proof.
  induction keys as [|k keys IH]; cbn [partial_match]; [discriminate|].
  destruct (PyStr.contains k requested || PyStr.contains requested k);
    [|exact IH].
  destruct (Dict.get models k) as [kb|]; [|discriminate].
  destruct (complete kb) eqn:Hkb; [|exact IH].
  intros H. now inversion H; subst.
Qed.

Lemma last_resort_complete models keys b :
  last_resort models keys = Some (Ok b) -> complete b = true.
Proof.
  induction keys as [|k keys IH]; cbn [last_resort]; [discriminate|].
  destruct (Dict.get models k) as [kb|]; [|discriminate].
  destruct (complete kb) eqn:Hkb; [|exact IH].
  intros H. now inversion H; subst.
Qed.

Lemma registered_complete_complete models key b :
  registered_complete models key = Some b -> complete b = true.
Proof.
  unfold registered_complete.
  destruct (Dict.get models key) as [kb|]; [|discriminate].
  destruct (complete kb) eqn:Hkb; [|discriminate].
  intros H. now inversion H; subst.
Qed.

Lemma resolve_complete models requested b :
  resolve models requested = Ok b -> complete b = true.
Proof.
  unfold resolve.
  destruct (exact_match models requested) as [eb|] eqn:He.
  { intros H. inversion H; subst.
    now apply (registered_complete_complete models requested). }
  destruct (partial_match models requested (Dict.keys models)) as [outcome|] eqn:Hp.
  { intros ->. now apply partial_match_complete in Hp. }
  destruct (default_fallback models) as [db|] eqn:Hd.
  { intros H. inversion H; subst.
    now apply (registered_complete_complete models default_city). }
  destruct (last_resort models (Dict.keys models)) as [outcome|] eqn:Hl.
  { intros ->. now apply last_resort_complete in Hl. }
  discriminate.
Qed.

Lemma get_models_complete models city b :
  get_models models city = Ok b -> complete b = true.
Proof. rewrite get_models_resolve. apply resolve_complete. Qed.

(** C2.  Whatever the artifact set, every bundle that loading registers
    has all three components, and whatever the registry holds, even
    incomplete bundles, every bundle that resolution returns has all three
    components. *)
Theorem bundles_always_complete :
  forall (fs : FileSystem) (loaded models : Dict.t Bundle)
         (city : option string) (b : Bundle),
    _load_models fs = Ok loaded ->
    get_models models city = Ok b ->
    (forall key registered, In (key, registered) loaded ->
       temperature registered <> None /\ rain registered <> None
       /\ scaler registered <> None)
    /\ (temperature b <> None /\ rain b <> None /\ scaler b <> None).
Proof.
  intros fs loaded models city b Hload Hget. split.
  - intros key registered Hin. apply complete_iff.
    destruct (load_models_invariant fs loaded Hload) as (Hall & _ & _).
    now apply (Hall key).
  - apply complete_iff. now apply (get_models_complete models city).
Qed.

Lemma bundles_always_complete_witness :
  _load_models sample_fs = Ok loaded_sample
  /\ Dict.get damaged_models "pune" = Some partial_bundle
  /\ complete partial_bundle = false
  /\ get_models damaged_models (Some "Pune") = Ok delhi_bundle
  /\ (temperature delhi_bundle <> None /\ rain delhi_bundle <> None
      /\ scaler delhi_bundle <> None).
Proof.
  repeat split; try reflexivity;
    apply (bundles_always_complete sample_fs
             loaded_sample
             damaged_models (Some "Pune") delhi_bundle eq_refl eq_refl).
Defined.

(** ** Validation *)

Lemma float_in_range_iff lo hi x :
  float_ge x lo && float_le x hi = true <-> in_range lo hi x.
Proof.
  unfold in_range. destruct x as [q|negative|]; cbn.
  - rewrite andb_true_iff, !Qle_bool_iff. split.
    + intros [Hlo Hhi]. now exists q.
    + intros (q' & Heq & Hlo & Hhi). inversion Heq; subst. now split.
  - split; [destruct negative; discriminate|].
    intros (q & Heq & _). discriminate.
  - split; [discriminate|]. intros (q & Heq & _). discriminate.
Qed.

Lemma float_field_in name lo hi x field :
  In field (float_field name lo hi x) <-> field = name /\ ~ in_range lo hi x.
Proof.
  unfold float_field. rewrite <- float_in_range_iff.
  destruct (float_ge x lo && float_le x hi); cbn; intuition congruence.
Qed.

Lemma int_field_in name lo hi x field :
  In field (int_field name lo hi x) <-> field = name /\ ~ (lo <= x <= hi)%Z.
Proof.
  unfold int_field.
  destruct ((lo <=? x)%Z && (x <=? hi)%Z) eqn:Hb; cbn.
  - apply andb_true_iff in Hb as [H1 H2].
    apply Z.leb_le in H1. apply Z.leb_le in H2. intuition lia.
  - apply andb_false_iff in Hb.
    split; [intros [<-|[]]; split; [reflexivity|] | intuition congruence].
    destruct Hb as [Hb|Hb]; apply Z.leb_gt in Hb; lia.
Qed.

Lemma validation_errors_in input field :
  In field (validation_errors input) <->
    (field = "humidity" /\ ~ in_range 0 100 (WeatherInput.humidity input))
    \/ (field = "pressure" /\ ~ in_range 900 1100 (WeatherInput.pressure input))
    \/ (field = "wind_speed" /\ ~ in_range 0 100 (WeatherInput.wind_speed input))
    \/ (field = "clouds" /\ ~ in_range 0 100 (WeatherInput.clouds input))
    \/ (field = "month" /\ ~ (1 <= WeatherInput.month input <= 12)%Z)
    \/ (field = "day" /\ ~ (1 <= WeatherInput.day input <= 31)%Z).
Proof.
  unfold validation_errors.
  rewrite !in_app_iff, !float_field_in, !int_field_in. reflexivity.
Qed.

Lemma float_field_nil name lo hi x :
  float_field name lo hi x = [] <-> in_range lo hi x.
Proof.
  unfold float_field. rewrite <- float_in_range_iff.
  destruct (float_ge x lo && float_le x hi); intuition discriminate.
Qed.

Lemma int_field_nil name lo hi x :
  int_field name lo hi x = [] <-> (lo <= x <= hi)%Z.
Proof.
  unfold int_field.
  destruct ((lo <=? x)%Z && (x <=? hi)%Z) eqn:Hb.
  - apply andb_true_iff in Hb as [H1 H2].
    apply Z.leb_le in H1. apply Z.leb_le in H2. intuition lia.
  - apply andb_false_iff in Hb. split; [discriminate|].
    destruct Hb as [Hb|Hb]; apply Z.leb_gt in Hb; lia.
Qed.

Lemma app_nil_iff {A : Type} (l l' : list A) :
  (l ++ l')%list = [] <-> l = [] /\ l' = [].
Proof.
  split; [apply app_eq_nil | now intros [-> ->]].
Qed.

Lemma validation_errors_nil input :
  validation_errors input = [] <->
    in_range 0 100 (WeatherInput.humidity input)
    /\ in_range 900 1100 (WeatherInput.pressure input)
    /\ in_range 0 100 (WeatherInput.wind_speed input)
    /\ in_range 0 100 (WeatherInput.clouds input)
    /\ (1 <= WeatherInput.month input <= 12)%Z
    /\ (1 <= WeatherInput.day input <= 31)%Z.
Proof.
  unfold validation_errors.
  rewrite <- !float_field_nil, <- !int_field_nil.
  rewrite !app_nil_iff. reflexivity.
Qed.

(** C4.  A request is accepted exactly when humidity, wind speed and
    clouds lie in [0,100], pressure in [900,1100], month in [1,12] and day
    in [1,31]; the reported fields are exactly the offending ones; and a
    request with an offending field is answered with the validation error
    and an unchanged store whatever the registry holds, so no model is
    consulted, while an accepted request goes on to [predict_weather]. *)
Theorem validation_before_inference :
  forall (input : WeatherInput.t) (models : Dict.t Bundle) (db : Table)
         (session : Session),
    (validation_errors input = [] <->
       in_range 0 100 (WeatherInput.humidity input)
       /\ in_range 900 1100 (WeatherInput.pressure input)
       /\ in_range 0 100 (WeatherInput.wind_speed input)
       /\ in_range 0 100 (WeatherInput.clouds input)
       /\ (1 <= WeatherInput.month input <= 12)%Z
       /\ (1 <= WeatherInput.day input <= 31)%Z)
    /\ (forall field, In field (validation_errors input) <->
         (field = "humidity" /\ ~ in_range 0 100 (WeatherInput.humidity input))
         \/ (field = "pressure" /\ ~ in_range 900 1100 (WeatherInput.pressure input))
         \/ (field = "wind_speed" /\ ~ in_range 0 100 (WeatherInput.wind_speed input))
         \/ (field = "clouds" /\ ~ in_range 0 100 (WeatherInput.clouds input))
         \/ (field = "month" /\ ~ (1 <= WeatherInput.month input <= 12)%Z)
         \/ (field = "day" /\ ~ (1 <= WeatherInput.day input <= 31)%Z))
    /\ (validation_errors input <> [] ->
        post_predict models db session input
        = (RequestValidationError (validation_errors input), db))
    /\ (validation_errors input = [] ->
        post_predict models db session input
        = predict_weather models db session input).
Proof.
  intros input models db session.
  split; [apply validation_errors_nil|].
  split; [intros field; apply validation_errors_in|].
  unfold post_predict.
  destruct (validation_errors input); split; congruence.
Qed.

Lemma validation_before_inference_witness :
  post_predict sample_models [] healthy_session
    (with_humidity (Finite (-1 # 1)) sample_input)
  = (RequestValidationError ["humidity"], [])
  /\ post_predict sample_models [] healthy_session
       (with_pressure (Finite (1200 # 1)) sample_input)
     = (RequestValidationError ["pressure"], [])
  /\ post_predict sample_models [] healthy_session (with_month 13 sample_input)
     = (RequestValidationError ["month"], [])
  /\ post_predict sample_models [] healthy_session (with_day 0 sample_input)
     = (RequestValidationError ["day"], [])
  /\ post_predict sample_models [] healthy_session sample_input
     = predict_weather sample_models [] healthy_session sample_input.
Proof.
  refine (conj _ (conj _ (conj _ (conj _ _)))).
  - apply (validation_before_inference
             (with_humidity (Finite (-1 # 1)) sample_input)). discriminate.
  - apply (validation_before_inference
             (with_pressure (Finite (1200 # 1)) sample_input)). discriminate.
  - apply (validation_before_inference (with_month 13 sample_input)). discriminate.
  - apply (validation_before_inference (with_day 0 sample_input)). discriminate.
  - apply (validation_before_inference sample_input). reflexivity.
Defined.

(** ** The prediction endpoint *)

(** Once a bundle is resolved, the endpoint runs inference on it and its
    outcome is decided by the commit alone. *)
Lemma predict_weather_resolved models db session input b :
  get_models models (WeatherInput.city input) = Ok b ->
  exists t r s,
    temperature b = Some t /\ rain b = Some r /\ scaler b = Some s
    /\ predict_weather models db session input
       = match add_and_commit db session
                 (prediction_record input (infer t r s input)) with
         | Ok db' => (Success (response_body (infer t r s input)), db')
         | Raise e => (handle_exception e, db)
         end.
Proof.
  intros Hget.
  pose proof (get_models_complete _ _ _ Hget) as Hc.
  apply complete_iff in Hc as (Ht & Hr & Hs).
  destruct (temperature b) as [t|] eqn:Et; [|now elim Ht].
  destruct (rain b) as [r|] eqn:Er; [|now elim Hr].
  destruct (scaler b) as [s|] eqn:Es; [|now elim Hs].
  exists t, r, s. repeat split.
  unfold predict_weather, predict_weather_body.
  rewrite Hget. cbn [bind]. rewrite Et, Er, Es. cbn [getitem bind].
  now destruct (add_and_commit db session _).
Qed.

(** A successful response comes from a resolved bundle and a commit that
    went through. *)
Lemma predict_weather_success models db session input body db' :
  predict_weather models db session input = (Success body, db') ->
  exists b t r s,
    get_models models (WeatherInput.city input) = Ok b
    /\ temperature b = Some t /\ rain b = Some r /\ scaler b = Some s
    /\ commit_error session = None
    /\ body = response_body (infer t r s input)
    /\ db' = (db ++ [stored_row db session
                       (prediction_record input (infer t r s input))])%list.
Proof.
  intros Hrun.
  destruct (get_models models (WeatherInput.city input)) as [b|e] eqn:Hget.
  - destruct (predict_weather_resolved models db session input b Hget)
      as (t & r & s & Et & Er & Es & Heq).
    rewrite Heq in Hrun. unfold add_and_commit in Hrun.
    destruct (commit_error session) as [msg|] eqn:Hc.
    + exfalso. cbn in Hrun. inversion Hrun as [[Hresp Hdb]].
      destruct (_ || _) in Hresp; discriminate.
    + inversion Hrun; subst. now exists b, t, r, s.
  - exfalso. unfold predict_weather, predict_weather_body in Hrun.
    rewrite Hget in Hrun. cbn [bind] in Hrun.
    inversion Hrun as [[Hresp Hdb]].
    destruct e; cbn in Hresp; try discriminate;
      destruct (_ || _) in Hresp; discriminate.
Qed.

Lemma handle_other_exception msg :
  exists detail,
    handle_exception (OtherException msg) = HTTPException 500 detail
    /\ (detail = "Database schema error. Please delete predictions.db and restart the server. Error: " ++ msg
        \/ detail = "Prediction error: " ++ msg).
Proof.
  cbn [handle_exception].
  destruct (_ || _); eexists; split; try reflexivity; auto.
Qed.

Lemma mentions_iff message word :
  mentions message word <-> PyStr.contains (PyStr.lower message) word = true.
Proof. unfold mentions. symmetry. apply contains_iff. Qed.

(** Which of the two details the last [except] clause gives. *)
Lemma handle_other_exception_detail msg :
  (mentions msg "no such column" \/ mentions msg "city" ->
   handle_exception (OtherException msg)
   = HTTPException 500
       ("Database schema error. Please delete predictions.db and restart the server. Error: "
        ++ msg))
  /\ (~ mentions msg "no such column" -> ~ mentions msg "city" ->
      handle_exception (OtherException msg)
      = HTTPException 500 ("Prediction error: " ++ msg)).
Proof.
  rewrite !mentions_iff. cbn [handle_exception].
  destruct (PyStr.contains (PyStr.lower msg) "no such column");
    destruct (PyStr.contains (PyStr.lower msg) "city"); cbn [orb];
    split; try reflexivity; intuition congruence.
Qed.

(** C5 (as amended).  When a bundle is resolved and inference runs but the
    commit of the record fails, the endpoint does not return the
    prediction: it answers with status 500 and leaves the store unchanged.
    The detail is the database-schema error followed by the commit's
    message when the lower-cased message contains [no such column] or
    [city], and the prediction error followed by the message when it
    contains neither.  A successful response is returned only after the
    commit went through, and then the store holds the new record with the
    same rain label. *)
Theorem failed_commit_is_server_error :
  forall (models : Dict.t Bundle) (db : Table) (session : Session)
         (input : WeatherInput.t) (b : Bundle),
    get_models models (WeatherInput.city input) = Ok b ->
    (forall msg, commit_error session = Some msg ->
       (mentions msg "no such column" \/ mentions msg "city" ->
        predict_weather models db session input
        = (HTTPException 500
             ("Database schema error. Please delete predictions.db and restart the server. Error: "
              ++ msg),
           db))
       /\ (~ mentions msg "no such column" -> ~ mentions msg "city" ->
           predict_weather models db session input
           = (HTTPException 500 ("Prediction error: " ++ msg), db))
       /\ exists detail,
            predict_weather models db session input = (HTTPException 500 detail, db)
            /\ (detail = "Database schema error. Please delete predictions.db and restart the server. Error: " ++ msg
                \/ detail = "Prediction error: " ++ msg))
    /\ (forall body db',
          predict_weather models db session input = (Success body, db') ->
          commit_error session = None
          /\ exists row, db' = (db ++ [row])%list
             /\ Prediction.predicted_rain row
                = WeatherPrediction.predicted_rain body).
Proof.
  intros models db session input b Hget. split.
  - intros msg Hmsg.
    destruct (predict_weather_resolved models db session input b Hget)
      as (t & r & s & _ & _ & _ & Heq).
    assert (Hrun : predict_weather models db session input
                   = (handle_exception (OtherException msg), db)).
    { rewrite Heq. unfold add_and_commit. now rewrite Hmsg. }
    destruct (handle_other_exception_detail msg) as [Hschema Hother].
    split; [intros Hm; now rewrite Hrun, (Hschema Hm)|].
    split; [intros H1 H2; now rewrite Hrun, (Hother H1 H2)|].
    destruct (handle_other_exception msg) as (detail & Hdetail & Hform).
    exists detail. split; [now rewrite Hrun, Hdetail | exact Hform].
  - intros body db' Hrun.
    destruct (predict_weather_success _ _ _ _ _ _ Hrun)
      as (b' & t & r & s & _ & _ & _ & _ & Hc & Hbody & Hdb).
    split; [exact Hc|]. eexists. split; [exact Hdb|].
    subst body. reflexivity.
Qed.

Lemma failed_commit_is_server_error_witness :
  predict_weather sample_models [] locked_session sample_input
  = (HTTPException 500 "Prediction error: database is locked", [])
  /\ predict_weather sample_models []
       {| commit_error := Some "No such column: predictions.humidity";
          utcnow := 0 |} sample_input
     = (HTTPException 500
          "Database schema error. Please delete predictions.db and restart the server. Error: No such column: predictions.humidity",
        []).
Proof.
  split.
  - refine (proj1 (proj2 (proj1 (failed_commit_is_server_error sample_models []
                                   locked_session sample_input kolkata_bundle
                                   eq_refl)
                            "database is locked" eq_refl)) _ _);
      rewrite mentions_iff; vm_compute; discriminate.
  - refine (proj1 (proj1 (failed_commit_is_server_error sample_models []
                            {| commit_error :=
                                 Some "No such column: predictions.humidity";
                               utcnow := 0 |}
                            sample_input kolkata_bundle eq_refl)
                     "No such column: predictions.humidity" eq_refl) _).
    left. rewrite mentions_iff. reflexivity.
Defined.

(** C5 (as stated) fails: with a resolved bundle and a commit that raises,
    the response is an error and carries no prediction. *)
Lemma failed_commit_loses_prediction :
  get_models sample_models (WeatherInput.city sample_input) = Ok kolkata_bundle
  /\ commit_error locked_session = Some "database is locked"
  /\ predict_weather sample_models [] locked_session sample_input
     = (HTTPException 500 "Prediction error: database is locked", [])
  /\ ~ (exists body,
          fst (predict_weather sample_models [] locked_session sample_input)
          = Success body).
Proof.
  split; [reflexivity|]. split; [reflexivity|]. split; [reflexivity|].
  intros [body H]. discriminate H.
Qed.

(** C7.  On every successful prediction the response carries the
    regressor's estimate rounded to two decimals, and the record appended
    to the store carries the estimate itself, as the regressor returned it
    on the scaled feature row. *)
Theorem temperature_rounded_in_response_only :
  forall (models : Dict.t Bundle) (db db' : Table) (session : Session)
         (input : WeatherInput.t) (body : WeatherPrediction.t),
    predict_weather models db session input = (Success body, db') ->
    exists b t s row,
      get_models models (WeatherInput.city input) = Ok b
      /\ temperature b = Some t /\ scaler b = Some s
      /\ WeatherPrediction.predicted_temperature body
         = round (predict t (transform s (feature_row input))) 2
      /\ db' = (db ++ [row])%list
      /\ Prediction.predicted_temperature row
         = predict t (transform s (feature_row input)).
Proof.
  intros models db db' session input body Hrun.
  destruct (predict_weather_success _ _ _ _ _ _ Hrun)
    as (b & t & r & s & Hget & Et & _ & Es & _ & Hbody & Hdb).
  exists b, t, s. eexists.
  repeat (split; [eassumption|]).
  split; [now subst body|]. split; [exact Hdb | reflexivity].
Qed.

Lemma temperature_rounded_in_response_only_witness :
  exists body row,
    predict_weather sample_models [] healthy_session sample_input
    = (Success body, [row])
    /\ WeatherPrediction.predicted_temperature body = Finite (1523 # 50)
    /\ Prediction.predicted_temperature row = Finite (30456 # 1000).
Proof.
  eexists. eexists. split; [reflexivity|].
  destruct (temperature_rounded_in_response_only sample_models [] _
              healthy_session sample_input _ eq_refl)
    as (b & t & s & row & Hget & Et & Es & Hbody & Hdb & Hrow).
  vm_compute in Hget. inversion Hget; subst b.
  cbn in Et, Es. inversion Et; inversion Es; subst t s.
  cbn [app] in Hdb. inversion Hdb as [Hrow_eq].
  split.
  - rewrite Hbody. reflexivity.
  - rewrite <- Hrow_eq in Hrow. exact Hrow.
Defined.

(** ** The rain label *)

(** C10.  The label is Yes exactly when the class is 1 and No for every
    other integer, including those outside 0 and 1; and the label the
    endpoint computes is that of the class the rain classifier returns on
    the scaled feature row. *)
Theorem rain_label_yes_iff_one :
  forall (c : Z) (t : Regressor) (r : Classifier) (s : Scaler)
         (input : WeatherInput.t),
    (rain_label c = "Yes" <-> c = 1%Z)
    /\ (rain_label c = "No" <-> c <> 1%Z)
    /\ snd (fst (infer t r s input))
       = rain_label (predict_class r (transform s (feature_row input))).
Proof.
  intros c t r s input. unfold rain_label.
  destruct (Z.eqb_spec c 1) as [->|Hne].
  - repeat split; try reflexivity; try discriminate; congruence.
  - repeat split; try reflexivity; try discriminate; congruence.
Qed.

Lemma rain_label_yes_iff_one_witness :
  rain_label 1 = "Yes" /\ rain_label 0 = "No" /\ rain_label 2 = "No"
  /\ rain_label (-1) = "No".
Proof.
  pose (t := constant_regressor NaN).
  pose (r := constant_classifier 0 NaN).
  assert (H2 : (2 <> 1)%Z) by discriminate.
  assert (H0 : (0 <> 1)%Z) by discriminate.
  assert (Hm : (-1 <> 1)%Z) by discriminate.
  refine (conj _ (conj _ (conj _ _))).
  - exact (proj2 (proj1 (rain_label_yes_iff_one 1 t r identity_scaler sample_input))
             eq_refl).
  - exact (proj2 (proj1 (proj2 (rain_label_yes_iff_one 0 t r identity_scaler
                                  sample_input))) H0).
  - exact (proj2 (proj1 (proj2 (rain_label_yes_iff_one 2 t r identity_scaler
                                  sample_input))) H2).
  - exact (proj2 (proj1 (proj2 (rain_label_yes_iff_one (-1) t r identity_scaler
                                  sample_input))) Hm).
Defined.

(** ** The store invariant *)

Lemma rain_label_yes_or_no c : rain_label c = "Yes" \/ rain_label c = "No".
Proof. unfold rain_label. destruct (c =? 1)%Z; auto. Qed.

Lemma post_predict_store models db session input response db' :
  post_predict models db session input = (response, db') ->
  db' = db \/ exists row, db' = (db ++ [row])%list /\ yes_or_no row.
Proof.
  unfold post_predict.
  destruct (validation_errors input); [|intros H; inversion H; now left].
  destruct response as [body|status detail|fields].
  - intros Hrun.
    destruct (predict_weather_success _ _ _ _ _ _ Hrun)
      as (b & t & r & s & _ & _ & _ & _ & _ & _ & Hdb).
    right. eexists. split; [exact Hdb|].
    unfold yes_or_no. cbn. apply rain_label_yes_or_no.
  - unfold predict_weather.
    destruct (predict_weather_body models db session input) as [[body db'']|e];
      intros H; inversion H; now left.
  - unfold predict_weather.
    destruct (predict_weather_body models db session input) as [[body db'']|e];
      intros H; inversion H; now left.
Qed.

Lemma clear_history_store db session outcome db' :
  clear_history db session = (outcome, db') -> db' = db \/ db' = [].
Proof.
  unfold clear_history. destruct (commit_error session);
    intros H; inversion H; auto.
Qed.

Lemma reachable_yes_or_no db : reachable db -> Forall yes_or_no db.
Proof.
  induction 1 as [|db db' Hreach IH Hstep]; [constructor|].
  destruct Hstep as [models session input db response db' Hrun
                    |session db outcome db' Hrun].
  - destruct (post_predict_store _ _ _ _ _ _ Hrun) as [->|(row & -> & Hrow)];
      [exact IH|].
    apply Forall_app. split; [exact IH | now constructor].
  - destruct (clear_history_store _ _ _ _ Hrun) as [->| ->];
      [exact IH | constructor].
Qed.

Lemma counts_of_labelled db :
  Forall yes_or_no db ->
  count_where_rain db "Yes" + count_where_rain db "No" = List.length db.
Proof.
  unfold count_where_rain.
  induction 1 as [|row db Hrow _ IH]; [reflexivity|].
  cbn [filter]. destruct Hrow as [-> | ->]; cbn; lia.
Qed.

(** C8.  In every store reachable from the empty table through the
    prediction and the clear-history endpoints, every record carries the
    label Yes or the label No, and so in the statistics the number of rain
    predictions plus the number of no-rain predictions is the total. *)
Theorem rain_counts_add_up :
  forall db : Table,
    reachable db ->
    Forall yes_or_no db
    /\ rain_predictions (get_statistics db)
       + no_rain_predictions (get_statistics db)
       = total_predictions (get_statistics db).
Proof.
  intros db Hreach.
  pose proof (reachable_yes_or_no db Hreach) as Hall.
  split; [exact Hall|]. cbn. now apply counts_of_labelled.
Qed.

Lemma rain_counts_add_up_witness :
  exists db,
    reachable db
    /\ List.length db = 2
    /\ rain_predictions (get_statistics db)
       + no_rain_predictions (get_statistics db)
       = total_predictions (get_statistics db).
Proof.
  pose (db1 := snd (post_predict sample_models [] healthy_session sample_input)).
  pose (db2 := snd (post_predict sample_models db1 healthy_session
                      (with_city (Some "Delhi") sample_input))).
  assert (Hreach : reachable db2).
  { apply (reachable_step db1).
    - apply (reachable_step []); [constructor|].
      apply (step_predict sample_models healthy_session sample_input []
               (fst (post_predict sample_models [] healthy_session sample_input))).
      apply surjective_pairing.
    - apply (step_predict sample_models healthy_session
               (with_city (Some "Delhi") sample_input) db1
               (fst (post_predict sample_models db1 healthy_session
                       (with_city (Some "Delhi") sample_input)))).
      apply surjective_pairing. }
  exists db2. split; [exact Hreach|]. split; [reflexivity|].
  exact (proj2 (rain_counts_add_up db2 Hreach)).
Defined.

(** * Further properties of the code *)

(** ** Keys produced by normalization *)

Lemma string_forall_lstrip p s :
  string_forall p s = true -> string_forall p (PyStr.lstrip s) = true.
Proof.
  induction s as [|c s IH]; [trivial|]. intros H. cbn [PyStr.lstrip].
  destruct (PyStr.isspace c); [|exact H].
  cbn in H. apply andb_true_iff in H as [_ H]. now apply IH.
Qed.

Lemma string_forall_rstrip p s :
  string_forall p s = true -> string_forall p (PyStr.rstrip s) = true.
Proof.
  induction s as [|c s IH]; [trivial|]. intros H.
  cbn in H. apply andb_true_iff in H as [Hc Hs]. specialize (IH Hs).
  cbn [PyStr.rstrip]. destruct (PyStr.rstrip s) as [|c' kept].
  - destruct (PyStr.isspace c); [reflexivity|]. cbn. now rewrite Hc.
  - change (p c && string_forall p (String c' kept) = true).
    now rewrite Hc, IH.
Qed.

Lemma lower_char_not_upper c : PyStr.isupper (PyStr.lower_char c) = false.
Proof. destruct c as [[] [] [] [] [] [] [] []]; reflexivity. Qed.

Lemma normalized_chars s :
  string_forall key_char
    (map_chars space_to_underscore (PyStr.strip (PyStr.lower s))) = true.
Proof.
  assert (Hlow : string_forall (fun c => negb (PyStr.isupper c)) (PyStr.lower s) = true).
  { induction s as [|c s IH]; [reflexivity|]. cbn.
    now rewrite lower_char_not_upper, IH. }
  apply string_forall_lstrip, string_forall_rstrip in Hlow.
  fold (PyStr.strip (PyStr.lower s)) in Hlow.
  induction (PyStr.strip (PyStr.lower s)) as [|c t IH]; [reflexivity|].
  cbn in Hlow. apply andb_true_iff in Hlow as [Hc Ht].
  cbn [map_chars string_forall]. rewrite (IH Ht), andb_true_r.
  unfold key_char, space_to_underscore.
  destruct (Ascii.eqb_spec c " ") as [->|Hne]; [reflexivity|].
  rewrite Hc, andb_true_r.
  destruct (Ascii.eqb_spec c " "); [contradiction | reflexivity].
Qed.

Lemma city_mapping_get_cases key :
  (key = "bangalore" /\ city_mapping_get key = "bengaluru")
  \/ (key = "bombay" /\ city_mapping_get key = "mumbai")
  \/ (key = "madras" /\ city_mapping_get key = "chennai")
  \/ (key <> "bangalore" /\ key <> "bombay" /\ key <> "madras"
      /\ city_mapping_get key = key).
Proof.
  destruct (String.eqb_spec key "bangalore") as [->|H1]; [now left|].
  destruct (String.eqb_spec key "bombay") as [->|H2]; [right; now left|].
  destruct (String.eqb_spec key "madras") as [->|H3]; [right; right; now left|].
  right; right; right. repeat split; try assumption.
  now apply city_mapping_get_other.
Qed.

Lemma normalize_cases city :
  _normalize_city_name city = default_city
  \/ exists s, city = Some s /\ s <> EmptyString
       /\ _normalize_city_name city
          = city_mapping_get
              (map_chars space_to_underscore (PyStr.strip (PyStr.lower s))).
Proof.
  destruct city as [[|c s]|]; [now left| |now left].
  right. exists (String c s). repeat split; [discriminate|].
  apply normalize_truthy. discriminate.
Qed.

(** X1.  The key computed for a request never contains a space or an
    upper-case letter, whatever the city string is. *)
Theorem normalized_key_has_no_space_or_capital :
  forall city : option string,
    string_forall key_char (_normalize_city_name city) = true.
Proof.
  intros city.
  destruct (normalize_cases city) as [->|(s & _ & _ & ->)]; [reflexivity|].
  destruct (city_mapping_get_cases
              (map_chars space_to_underscore (PyStr.strip (PyStr.lower s))))
    as [[_ ->]|[[_ ->]|[[_ ->]|(_ & _ & _ & ->)]]]; try reflexivity.
  apply normalized_chars.
Qed.

(** X2.  The key computed for a request is never one of the three alias
    sources, so no request is matched exactly against a bundle registered
    under [bangalore], [bombay] or [madras]. *)
Theorem normalized_key_is_never_an_alias_source :
  forall city : option string,
    _normalize_city_name city <> "bangalore"
    /\ _normalize_city_name city <> "bombay"
    /\ _normalize_city_name city <> "madras".
Proof.
  intros city.
  destruct (normalize_cases city) as [->|(s & _ & _ & ->)];
    [repeat split; discriminate|].
  destruct (city_mapping_get_cases
              (map_chars space_to_underscore (PyStr.strip (PyStr.lower s))))
    as [[_ ->]|[[_ ->]|[[_ ->]|(H1 & H2 & H3 & ->)]]];
    repeat split; try discriminate; assumption.
Qed.

(** ** Requests that differ in case or padding *)

(** X3.  Changing the letter case of the city string does not change
    how a request resolves, and neither does whitespace added around a
    non-empty city string; a missing city, the empty city and the city
    ["default"] resolve alike.  Whitespace around the empty string is not
    ignored: a blank city resolves as the empty key does, which on a
    registry of kolkata and default gives the kolkata bundle where the
    empty city gives the default one. *)
Theorem resolution_ignores_case_and_padding :
  forall (models : Dict.t Bundle) (s left right : string),
    only_whitespace left = true -> only_whitespace right = true ->
    get_models models (Some (PyStr.lower s)) = get_models models (Some s)
    /\ (s <> EmptyString ->
        get_models models (Some (left ++ s ++ right)) = get_models models (Some s))
    /\ get_models models None = get_models models (Some "default")
    /\ get_models models (Some EmptyString) = get_models models (Some "default")
    /\ (left <> EmptyString ->
        get_models models (Some left) = resolve models EmptyString)
    /\ get_models [("kolkata", kolkata_bundle); ("default", legacy_bundle)]
         (Some " ") = Ok kolkata_bundle
    /\ get_models [("kolkata", kolkata_bundle); ("default", legacy_bundle)]
         (Some EmptyString) = Ok legacy_bundle.
Proof.
  intros models s left right Hl Hr.
  rewrite !get_models_resolve.
  rewrite normalize_case_insensitive.
  split; [reflexivity|].
  split; [intros Hs; now rewrite normalize_padding|].
  split; [reflexivity|]. split; [reflexivity|].
  split; [intros Hne; now rewrite normalize_only_whitespace|].
  split; reflexivity.
Qed.

Lemma resolution_ignores_case_and_padding_witness :
  get_models sample_models (Some "  KOLKATA ")
  = get_models sample_models (Some "KOLKATA")
  /\ get_models sample_models (Some "kolkata")
     = get_models sample_models (Some "KOLKATA").
Proof.
  assert (Hs : "KOLKATA" <> EmptyString) by discriminate.
  destruct (resolution_ignores_case_and_padding sample_models "KOLKATA" "  " " "
              eq_refl eq_refl) as (Hcase & Hpad & _).
  split; [exact (Hpad Hs) | exact Hcase].
Defined.

(** ** When resolution fails *)

Lemma registered_complete_in models key b :
  registered_complete models key = Some b ->
  In (key, b) models /\ complete b = true.
Proof.
  unfold registered_complete.
  destruct (Dict.get models key) as [kb|] eqn:Hget; [|discriminate].
  destruct (complete kb) eqn:Hc; [|discriminate].
  intros H. inversion H; subst. split; [now apply get_in | exact Hc].
Qed.

Lemma first_complete_where_in p (models : Dict.t Bundle) b :
  first_complete_where p models = Some b ->
  exists key, In (key, b) models /\ p key = true /\ complete b = true.
Proof.
  unfold first_complete_where.
  destruct (find _ models) as [[k v]|] eqn:Hfind; [|discriminate].
  intros H. inversion H; subst. apply find_some in Hfind as [Hin Hp].
  cbn in Hp. apply andb_true_iff in Hp as [Hp Hc]. now exists k.
Qed.

Lemma first_complete_none (models : Dict.t Bundle) :
  first_complete_where (fun _ => true) models = None ->
  forall key b, In (key, b) models -> complete b = false.
Proof.
  unfold first_complete_where.
  destruct (find _ models) eqn:Hfind; [discriminate|].
  intros _ key b Hin. exact (find_none _ _ Hfind _ Hin).
Qed.

Lemma first_success_in (models : Dict.t Bundle) steps b :
  first_success steps = Ok b ->
  (forall step sb, In step steps -> step = Some sb ->
     complete sb = true /\ exists key, In (key, sb) models) ->
  complete b = true /\ exists key, In (key, b) models.
Proof.
  induction steps as [|[sb|] steps IH]; cbn [first_success].
  - discriminate.
  - intros H Hall. inversion H; subst. apply (Hall (Some b)); [now left | reflexivity].
  - intros H Hall. apply IH; [exact H|]. intros step sb Hin. apply Hall. now right.
Qed.

Lemma get_models_outcome (models : Dict.t Bundle) (city : option string) :
  Dict.wf models ->
  (exists b, get_models models city = Ok b
             /\ complete b = true /\ exists key, In (key, b) models)
  \/ (get_models models city = Raise (ValueError no_valid_models)
      /\ forall key b, In (key, b) models -> complete b = false).
Proof.
  intros Hwf.
  rewrite get_models_resolve, resolve_precedence by assumption.
  set (key := _normalize_city_name city).
  destruct (first_success (precedence models key)) as [b|e] eqn:Hres.
  - left. exists b. split; [reflexivity|].
    apply (first_success_in models _ b Hres).
    intros step sb Hin Hstep. subst step.
    cbn in Hin. destruct Hin as [H|[H|[H|[H|[]]]]].
    + apply registered_complete_in in H as [Hin Hc]. split; [exact Hc | now exists key].
    + apply first_complete_where_in in H as (k & Hin & _ & Hc). split; [exact Hc | now exists k].
    + apply registered_complete_in in H as [Hin Hc].
      split; [exact Hc | now exists default_city].
    + apply first_complete_where_in in H as (k & Hin & _ & Hc). split; [exact Hc | now exists k].
  - right. unfold precedence in Hres. cbn [first_success] in Hres.
    destruct (registered_complete models key); [discriminate|].
    destruct (first_complete_where (substring_related key) models); [discriminate|].
    destruct (registered_complete models default_city); [discriminate|].
    destruct (first_complete_where (fun _ => true) models) eqn:Hnone; [discriminate|].
    inversion Hres; subst. split; [reflexivity|].
    now apply first_complete_none.
Qed.

(** X4.  On every registry, resolution either returns a complete bundle that is
    registered, or raises the no-valid-models error; and it raises exactly
    when no registered bundle is complete. *)
Theorem resolution_fails_only_without_complete_bundle :
  forall (models : Dict.t Bundle) (city : option string),
    Dict.wf models ->
    (exists b, get_models models city = Ok b
               /\ complete b = true /\ exists key, In (key, b) models)
    \/ (get_models models city = Raise (ValueError no_valid_models)
        /\ forall key b, In (key, b) models -> complete b = false).
Proof. exact get_models_outcome. Qed.

Lemma damaged_models_wf : Dict.wf damaged_models.
Proof. unfold Dict.wf. cbn. repeat constructor; cbn; intuition discriminate. Qed.

Lemma resolution_fails_only_without_complete_bundle_witness :
  exists b, get_models damaged_models (Some "Pune") = Ok b
            /\ complete b = true /\ exists key, In (key, b) damaged_models.
Proof.
  destruct (resolution_fails_only_without_complete_bundle damaged_models
              (Some "Pune") damaged_models_wf) as [H|[H _]];
    [exact H | discriminate H].
Defined.

Lemma loaded_resolves fs (models : Dict.t Bundle) city :
  _load_models fs = Ok models ->
  exists b key,
    get_models models city = Ok b /\ complete b = true /\ In (key, b) models.
Proof.
  intros Hload.
  destruct (load_models_invariant fs models Hload) as (Hall & Hwf & Hne).
  destruct (get_models_outcome models city Hwf)
    as [(b & Hget & Hc & key & Hin)|[_ Hnone]].
  - now exists b, key.
  - exfalso. destruct models as [|[k v] rest]; [now elim Hne|].
    specialize (Hall k v (or_introl eq_refl)).
    specialize (Hnone k v (or_introl eq_refl)). congruence.
Qed.

(** X5.  After a successful load no request fails to resolve: every city
    string, registered or not, gets a complete registered bundle. *)
Theorem loaded_registry_always_resolves :
  forall (fs : FileSystem) (models : Dict.t Bundle) (city : option string),
    _load_models fs = Ok models ->
    exists b key,
      get_models models city = Ok b /\ complete b = true /\ In (key, b) models.
Proof. exact loaded_resolves. Qed.

Lemma loaded_registry_always_resolves_witness :
  exists b key,
    get_models loaded_sample (Some "Timbuktu") = Ok b
    /\ complete b = true /\ In (key, b) loaded_sample.
Proof.
  exact (loaded_registry_always_resolves sample_fs loaded_sample
           (Some "Timbuktu") eq_refl).
Defined.

(** ** What loading registers *)

Lemma get_set_same {V : Type} (d : Dict.t V) k v :
  Dict.get (Dict.set d k v) k = Some v.
Proof.
  induction d as [|[k' v'] d IH]; cbn.
  - now rewrite String.eqb_refl.
  - destruct (String.eqb_spec k' k) as [->|Hne]; cbn.
    + now rewrite String.eqb_refl.
    + destruct (String.eqb_spec k' k); [contradiction | exact IH].
Qed.

Lemma get_set_other {V : Type} (d : Dict.t V) k v k0 :
  k0 <> k -> Dict.get (Dict.set d k v) k0 = Dict.get d k0.
Proof.
  intros Hne. induction d as [|[k' v'] d IH]; cbn.
  - destruct (String.eqb_spec k k0); [congruence | reflexivity].
  - destruct (String.eqb_spec k' k) as [->|Hk]; cbn.
    + destruct (String.eqb_spec k k0); [congruence | reflexivity].
    + destruct (String.eqb_spec k' k0); [reflexivity | exact IH].
Qed.

Lemma mem_true_in {V : Type} (d : Dict.t V) k :
  Dict.mem d k = true <-> In k (Dict.keys d).
Proof.
  unfold Dict.mem, Dict.keys.
  induction d as [|[k' v'] d IH]; cbn; [intuition discriminate|].
  destruct (String.eqb_spec k' k) as [->|Hne]; [intuition|].
  rewrite IH. intuition congruence.
Qed.

Lemma load_models_unfold fs :
  _load_models fs
  = match listdir_models fs with
    | Some (Raise e) => Raise e
    | _ => check_loaded
             (add_complete (fst (load_default fs [])) (scanned_cities fs))
             (snd (load_default fs []))
    end.
Proof.
  unfold _load_models, scanned_cities.
  destruct (load_default fs []) as [base flag]. cbn [fst snd].
  destruct (listdir_models fs) as [[files|e]|]; reflexivity.
Qed.

Lemma loaded_is_built fs (models : Dict.t Bundle) :
  _load_models fs = Ok models ->
  models = add_complete (fst (load_default fs [])) (scanned_cities fs).
Proof.
  rewrite load_models_unfold.
  destruct (listdir_models fs) as [[files|e]|]; try discriminate;
    unfold check_loaded;
    destruct (add_complete _ _) as [|entry rest];
    try (destruct (negb _); [discriminate|]);
    intros H; now inversion H.
Qed.

Lemma add_complete_keys items :
  forall (base : Dict.t Bundle) key,
    In key (Dict.keys (add_complete base items))
    <-> In key (Dict.keys base)
        \/ exists b, In (key, b) items /\ complete b = true.
Proof.
  induction items as [|[c b] items IH]; intros base key; cbn [add_complete].
  - split; [now left | intros [H|(b & [] & _)]; exact H].
  - destruct (complete b) eqn:Hb; rewrite IH.
    + rewrite set_keys. split.
      * intros [Hin|(b' & Hin & Hc)].
        -- destruct (Dict.mem base c); [now left|].
           apply in_app_iff in Hin as [Hin|[<-|[]]]; [now left|].
           right. exists b. split; [now left | exact Hb].
        -- right. exists b'. split; [now right | exact Hc].
      * intros [Hin|(b' & [Heq|Hin] & Hc)].
        -- left. destruct (Dict.mem base c); [exact Hin|].
           apply in_app_iff. now left.
        -- inversion Heq; subst. left.
           destruct (Dict.mem base key) eqn:Hm.
           ++ now apply mem_true_in.
           ++ apply in_app_iff. right. now left.
        -- right. now exists b'.
    + split.
      * intros [Hin|(b' & Hin & Hc)]; [now left|].
        right. exists b'. split; [now right | exact Hc].
      * intros [Hin|(b' & [Heq|Hin] & Hc)]; [now left| |].
        -- inversion Heq; subst. congruence.
        -- right. now exists b'.
Qed.

Lemma add_complete_get_notin items :
  forall (base : Dict.t Bundle) key,
    ~ In key (Dict.keys items) ->
    Dict.get (add_complete base items) key = Dict.get base key.
Proof.
  induction items as [|[c b] items IH]; intros base key Hnot; [reflexivity|].
  cbn [add_complete]. cbn in Hnot.
  destruct (complete b); rewrite IH by tauto; [|reflexivity].
  apply get_set_other. intros ->. tauto.
Qed.

Lemma add_complete_get_in items :
  forall (base : Dict.t Bundle) key b,
    Dict.wf items -> In (key, b) items -> complete b = true ->
    Dict.get (add_complete base items) key = Some b.
Proof.
  unfold Dict.wf.
  induction items as [|[c cb] items IH]; intros base key b Hwf Hin Hc; [contradiction|].
  cbn in Hwf. inversion Hwf as [|? ? Hnotin Hrest]; subst.
  cbn [add_complete]. destruct Hin as [Heq|Hin].
  - inversion Heq; subst. rewrite Hc.
    rewrite add_complete_get_notin by exact Hnotin. apply get_set_same.
  - destruct (complete cb); now apply IH.
Qed.

Lemma ensure_city_wf (d : Dict.t Bundle) city : Dict.wf d -> Dict.wf (ensure_city d city).
Proof.
  intros H. unfold ensure_city. destruct (Dict.mem d city); [exact H | now apply set_wf].
Qed.

Lemma update_city_wf (d : Dict.t Bundle) city f : Dict.wf d -> Dict.wf (update_city d city f).
Proof.
  intros H. unfold update_city. destruct (Dict.get d city); [now apply set_wf | exact H].
Qed.

Lemma load_file_wf fs d file : Dict.wf d -> Dict.wf (load_file fs d file).
Proof.
  intros H. unfold load_file.
  repeat match goal with
         | |- Dict.wf (if ?c then _ else _) => destruct c
         | |- Dict.wf (match ?o with Some _ => _ | None => _ end) => destruct o
         | |- Dict.wf (update_city _ _ _) => apply update_city_wf
         | |- Dict.wf (ensure_city _ _) => apply ensure_city_wf
         end; exact H.
Qed.

Lemma scanned_cities_wf fs : Dict.wf (scanned_cities fs).
Proof.
  unfold scanned_cities.
  destruct (listdir_models fs) as [[files|e]|]; try constructor.
  assert (Hgen : forall d, Dict.wf d -> Dict.wf (fold_left (load_file fs) files d)).
  { induction files as [|f files IH]; intros d Hd; [exact Hd|].
    cbn. apply IH. now apply load_file_wf. }
  apply Hgen. constructor.
Qed.

Lemma load_default_keys fs :
  Dict.keys (fst (load_default fs []))
  = if snd (load_default fs []) then [default_city] else [].
Proof.
  unfold load_default.
  destruct (exists_default_temperature fs); [|reflexivity].
  destruct (default_temperature fs), (default_rain fs), (default_scaler fs);
    reflexivity.
Qed.

(** X6.  After a successful load, the health endpoint lists at least one city
    and lists none twice; a city is listed exactly when it is [default]
    with the three root files loaded, or the directory scan gathered all
    three of its artifacts; and a city gathered by the scan is registered
    with the scanned bundle, also under the key [default], where it
    replaces the bundle of the root files. *)
Theorem available_cities_characterised :
  forall (fs : FileSystem) (models : Dict.t Bundle),
    _load_models fs = Ok models ->
    health_check models <> []
    /\ NoDup (health_check models)
    /\ (forall city,
          In city (health_check models)
          <-> (city = default_city /\ snd (load_default fs []) = true)
              \/ exists b, In (city, b) (scanned_cities fs) /\ complete b = true)
    /\ (forall city b,
          In (city, b) (scanned_cities fs) -> complete b = true ->
          Dict.get models city = Some b).
Proof.
  intros fs models Hload.
  destruct (load_models_invariant fs models Hload) as (_ & Hwf & Hne).
  pose proof (loaded_is_built fs models Hload) as Hmodels.
  unfold health_check. split; [|split; [exact Hwf|split]].
  - destruct models; [now elim Hne | discriminate].
  - intros city. rewrite Hmodels, add_complete_keys, load_default_keys.
    destruct (snd (load_default fs [])); cbn; intuition congruence.
  - intros city b Hin Hc. rewrite Hmodels.
    apply add_complete_get_in; [apply scanned_cities_wf | exact Hin | exact Hc].
Qed.

Lemma available_cities_characterised_witness :
  health_check loaded_sample = ["kolkata"; EmptyString]
  /\ ~ In "pune" (health_check loaded_sample)
  /\ Dict.get loaded_sample "kolkata" = Some kolkata_bundle.
Proof.
  destruct (available_cities_characterised sample_fs loaded_sample eq_refl)
    as (_ & _ & Hlisted & Hget).
  split; [reflexivity|]. split.
  - cbn. intuition discriminate.
  - apply Hget; [|reflexivity]. vm_compute. now left.
Defined.

Lemma load_outcome (fs : FileSystem) :
  (exists models, _load_models fs = Ok models /\ models <> [])
  \/ (exists e, listdir_models fs = Some (Raise e) /\ _load_models fs = Raise e)
  \/ (_load_models fs = Raise (FileNotFoundError no_model_files)
      /\ (forall e, listdir_models fs <> Some (Raise e))
      /\ snd (load_default fs []) = false
      /\ forall city b, In (city, b) (scanned_cities fs) -> complete b = false).
Proof.
  rewrite load_models_unfold.
  destruct (listdir_models fs) as [[files|e]|] eqn:Hlist.
  2: { right; left. now exists e. }
  all: unfold check_loaded;
    destruct (add_complete _ _) as [|entry rest] eqn:Hadd;
    [|left; eexists; split; [reflexivity | discriminate]];
    right; right;
    assert (Hkeys : forall key,
               ~ In key (Dict.keys (add_complete (fst (load_default fs []))
                                      (scanned_cities fs))))
      by (intros key; rewrite Hadd; intros []);
    assert (Hflag : snd (load_default fs []) = false)
      by (destruct (snd (load_default fs [])) eqn:Hf; [|reflexivity];
          exfalso; apply (Hkeys default_city); apply add_complete_keys; left;
          rewrite load_default_keys, Hf; now left);
    rewrite Hflag; cbn [negb];
    split; [reflexivity|]; split; [discriminate|]; split; [reflexivity|];
    intros city b Hin; destruct (complete b) eqn:Hc; [|reflexivity];
    exfalso; apply (Hkeys city); apply add_complete_keys; right; now exists b.
Qed.


(** X8.  When the three root files load and listing the models directory
    does not raise, loading succeeds and [default] is the first registered
    city, which is the first that the partial-match and last-resort scans
    meet, whatever the models directory holds; when the listing raises,
    loading raises with it although the root files loaded. *)
Theorem default_is_registered_first :
  forall fs : FileSystem,
    snd (load_default fs []) = true ->
    ((forall e, listdir_models fs <> Some (Raise e)) ->
     exists b rest,
       _load_models fs = Ok ((default_city, b) :: rest) /\ complete b = true)
    /\ (forall e, listdir_models fs = Some (Raise e) -> _load_models fs = Raise e).
Proof.
  intros fs Hflag. split.
  2: { intros e He. rewrite load_models_unfold. now rewrite He. }
  intros Hlist.
  assert (Hhead : forall items (b0 : Bundle) rest0,
             exists b rest, add_complete ((default_city, b0) :: rest0) items
                            = (default_city, b) :: rest).
  { induction items as [|[c cb] items IH]; intros b0 rest0; cbn [add_complete].
    - now exists b0, rest0.
    - destruct (complete cb); [|now apply IH].
      cbn [Dict.set]. destruct (default_city =? c)%string; now apply IH. }
  assert (Hbase : exists b0, fst (load_default fs []) = [(default_city, b0)]).
  { revert Hflag. unfold load_default.
    destruct (exists_default_temperature fs); [|discriminate].
    destruct (default_temperature fs), (default_rain fs), (default_scaler fs);
      cbn; try discriminate. intros _. eexists. reflexivity. }
  destruct Hbase as [b0 Hbase].
  destruct (Hhead (scanned_cities fs) b0 []) as (b & rest & Heq).
  exists b, rest.
  assert (Hload : _load_models fs = Ok ((default_city, b) :: rest)).
  { rewrite load_models_unfold, Hbase, Heq.
    destruct (listdir_models fs) as [[files|e]|]; try reflexivity.
    now elim (Hlist e). }
  split; [exact Hload|].
  destruct (load_models_invariant fs _ Hload) as (Hall & _ & _).
  apply (Hall default_city). now left.
Qed.

(** ** Outcomes of the prediction endpoint *)






(** X10.  The record appended by a successful prediction holds the request as
    it came in: the city string as sent, not its normalized key, and the
    six feature values; it holds the clock's time, the label of the
    response, and the two raw estimates of which the response shows the
    roundings to two and to four decimals. *)
Theorem stored_record_matches_request :
  forall (models : Dict.t Bundle) (db db' : Table) (session : Session)
         (input : WeatherInput.t) (body : WeatherPrediction.t),
    predict_weather models db session input = (Success body, db') ->
    exists row,
      db' = (db ++ [row])%list
      /\ Prediction.city row = WeatherInput.city input
      /\ Prediction.humidity row = WeatherInput.humidity input
      /\ Prediction.pressure row = WeatherInput.pressure input
      /\ Prediction.wind_speed row = WeatherInput.wind_speed input
      /\ Prediction.clouds row = WeatherInput.clouds input
      /\ Prediction.month row = WeatherInput.month input
      /\ Prediction.day row = WeatherInput.day input
      /\ Prediction.timestamp row = utcnow session
      /\ Prediction.predicted_rain row = WeatherPrediction.predicted_rain body
      /\ WeatherPrediction.predicted_temperature body
         = round (Prediction.predicted_temperature row) 2
      /\ WeatherPrediction.rain_probability body
         = round (Prediction.rain_probability row) 4.
Proof.
  intros models db db' session input body Hrun.
  destruct (predict_weather_success _ _ _ _ _ _ Hrun)
    as (b & t & r & s & _ & _ & _ & _ & _ & -> & ->).
  eexists. split; [reflexivity|]. repeat split.
Qed.

Lemma stored_record_matches_request_witness :
  exists row,
    snd (predict_weather sample_models [] healthy_session
           (with_city (Some "  KOLKATA ") sample_input)) = [row]
    /\ Prediction.city row = Some "  KOLKATA ".
Proof.
  destruct (stored_record_matches_request sample_models [] _ healthy_session
              (with_city (Some "  KOLKATA ") sample_input) _ eq_refl)
    as (row & Hdb & Hcity & _).
  exists row. split; [exact Hdb | exact Hcity].
Defined.



(** ** How a failed commit is reported *)

(** X13.  A commit failure whose message contains the word city, in any letter
    case and anywhere in the message, is reported as a database schema
    error, whatever its cause. *)
Theorem commit_error_mentioning_city_is_schema_error :
  forall (models : Dict.t Bundle) (db : Table) (session : Session)
         (input : WeatherInput.t) (b : Bundle) (pre word post : string),
    get_models models (WeatherInput.city input) = Ok b ->
    commit_error session = Some (pre ++ word ++ post) ->
    PyStr.lower word = "city" ->
    predict_weather models db session input
    = (HTTPException 500
         ("Database schema error. Please delete predictions.db and restart the server. Error: "
          ++ pre ++ word ++ post),
       db).
Proof.
  intros models db session input b pre word post Hget Hmsg Hword.
  destruct (predict_weather_resolved models db session input b Hget)
    as (t & r & s & _ & _ & _ & Heq).
  rewrite Heq. unfold add_and_commit. rewrite Hmsg.
  cbn [handle_exception].
  rewrite !lower_append, Hword, contains_append, orb_true_r. reflexivity.
Qed.

Lemma commit_error_mentioning_city_is_schema_error_witness :
  predict_weather sample_models []
    {| commit_error := Some "disk capaCITY exceeded"; utcnow := 0 |} sample_input
  = (HTTPException 500
       "Database schema error. Please delete predictions.db and restart the server. Error: disk capaCITY exceeded",
     []).
Proof.
  exact (commit_error_mentioning_city_is_schema_error sample_models []
           {| commit_error := Some "disk capaCITY exceeded"; utcnow := 0 |}
           sample_input kolkata_bundle "disk capa" "CITY" " exceeded"
           eq_refl eq_refl eq_refl).
Defined.

Lemma default_is_registered_first_witness :
  (exists b rest,
     _load_models legacy_fs = Ok ((default_city, b) :: rest)
     /\ complete b = true)
  /\ _load_models unlistable_fs
     = Raise (OtherException "[Errno 20] Not a directory: 'models'").
Proof.
  split.
  - apply (proj1 (default_is_registered_first legacy_fs eq_refl)).
    intros e. discriminate.
  - exact (proj2 (default_is_registered_first unlistable_fs eq_refl) _ eq_refl).
Defined.

(** ** File names of the models directory *)

Lemma string_length_append a b : length (a ++ b) = length a + length b.
Proof. induction a as [|c a IH]; cbn; [reflexivity | now rewrite IH]. Qed.

Lemma substring_whole s : substring 0 (length s) s = s.
Proof. induction s as [|c s IH]; cbn; [reflexivity | now rewrite IH]. Qed.

Lemma substring_skip pre m t :
  substring (length pre) m (pre ++ t) = substring 0 m t.
Proof. induction pre as [|c pre IH]; cbn; [reflexivity | exact IH]. Qed.

Lemma substring_split n :
  forall s, n <= length s ->
            s = substring 0 n s ++ substring n (length s - n) s.
Proof.
  induction n as [|n IH]; intros s Hn.
  - rewrite Nat.sub_0_r, substring_whole. now destruct s.
  - destruct s as [|c s]; cbn in Hn; [lia|].
    cbn. f_equal. apply IH. lia.
Qed.

Lemma endswith_append pre suffix : PyStr.endswith (pre ++ suffix) suffix = true.
Proof.
  unfold PyStr.endswith. rewrite string_length_append.
  replace (length pre + length suffix - length suffix) with (length pre) by lia.
  rewrite substring_skip, substring_whole, String.eqb_refl, andb_true_r.
  apply Nat.leb_le. lia.
Qed.

Lemma endswith_split s suffix :
  PyStr.endswith s suffix = true -> exists pre, s = pre ++ suffix.
Proof.
  unfold PyStr.endswith. intros H. apply andb_true_iff in H as [Hlen Heq].
  apply Nat.leb_le in Hlen. apply String.eqb_eq in Heq.
  exists (substring 0 (length s - length suffix) s).
  rewrite (substring_split (length s - length suffix) s) at 1 by lia.
  replace (length s - (length s - length suffix)) with (length suffix) by lia.
  now rewrite Heq.
Qed.

Lemma reverse_onto_append a b acc :
  reverse_onto (a ++ b) acc = reverse_onto b (reverse_onto a acc).
Proof.
  revert acc. induction a as [|c a IH]; intros acc; cbn; [reflexivity | apply IH].
Qed.

(** Two names with the same stem cannot end in two of the three suffixes. *)
Lemma suffixes_exclusive c :
  PyStr.endswith (c ++ "_rain_model.pkl") "_temperature_model.pkl" = false
  /\ PyStr.endswith (c ++ "_scaler.pkl") "_temperature_model.pkl" = false
  /\ PyStr.endswith (c ++ "_scaler.pkl") "_rain_model.pkl" = false.
Proof.
  repeat split;
    match goal with
    | |- PyStr.endswith ?s ?suffix = false =>
        destruct (PyStr.endswith s suffix) eqn:H; [|reflexivity];
        apply endswith_split in H as [pre H];
        apply (f_equal (fun whole => reverse_onto whole EmptyString)) in H;
        rewrite !reverse_onto_append in H; cbn in H; discriminate H
    end.
Qed.

Lemma dot_index_append_some a rest n :
  dot_index a = Some n -> dot_index (a ++ rest) = Some n.
Proof.
  revert n. induction a as [|c a IH]; intros n; cbn; [discriminate|].
  destruct (Ascii.eqb c "."); [trivial|].
  destruct (dot_index a) as [k|]; [|discriminate].
  now rewrite (IH k eq_refl).
Qed.

Lemma dot_index_append_free u t :
  string_forall not_dot u = true ->
  dot_index (u ++ t) = option_map (Nat.add (length u)) (dot_index t).
Proof.
  induction u as [|c u IH]; cbn.
  - intros _. now destruct (dot_index t).
  - unfold not_dot at 1. intros H. apply andb_true_iff in H as [Hc Hu].
    apply negb_true_iff in Hc. rewrite Hc, (IH Hu).
    now destruct (dot_index t).
Qed.

Lemma no_early_match u old n :
  string_forall not_dot u = true -> u <> EmptyString ->
  dot_index old = Some n ->
  prefix old (u ++ old) = false.
Proof.
  intros Hfree Hne Hdot.
  destruct (prefix old (u ++ old)) eqn:Hp; [|reflexivity].
  apply prefix_split in Hp as [rest Heq].
  apply (f_equal dot_index) in Heq.
  rewrite (dot_index_append_free u old Hfree), Hdot in Heq.
  rewrite (dot_index_append_some old rest n Hdot) in Heq.
  cbn in Heq. inversion Heq as [Hlen].
  destruct u; [now elim Hne | cbn in Hlen; lia].
Qed.

Lemma replace_from_skip old new s :
  PyStr.replace_from old new s (length s) = EmptyString.
Proof. induction s as [|c s IH]; cbn; [reflexivity | exact IH]. Qed.

Lemma prefix_refl a : prefix a a = true.
Proof.
  induction a as [|c a IH]; cbn; [reflexivity|].
  destruct (ascii_dec c c); [exact IH | contradiction].
Qed.

(** Removing a suffix that contains a dot from a name whose stem has none
    gives the stem back. *)
Lemma replace_strips_suffix c old n :
  string_forall not_dot c = true ->
  dot_index old = Some n ->
  PyStr.replace (c ++ old) old EmptyString = c.
Proof.
  intros Hfree Hdot. unfold PyStr.replace.
  induction c as [|x c IH].
  - cbn [append]. destruct old as [|y old]; [discriminate|].
    cbn [PyStr.replace_from]. rewrite prefix_refl.
    replace (length (String y old) - 1) with (length old) by (cbn; lia).
    cbn [append]. apply replace_from_skip.
  - pose proof Hfree as Hfree'. cbn in Hfree'.
    apply andb_true_iff in Hfree' as [_ Hc].
    cbn [append PyStr.replace_from].
    change (String x (c ++ old)) with (String x c ++ old).
    rewrite (no_early_match (String x c) old n) by (assumption || discriminate).
    now rewrite (IH Hc).
Qed.

(** ** From the files of a city to its registration *)

Lemma ensure_city_get_same (d : Dict.t Bundle) c :
  Dict.get (ensure_city d c) c
  = Some (match Dict.get d c with Some b => b | None => empty_bundle end).
Proof.
  unfold ensure_city, Dict.mem.
  destruct (Dict.get d c) as [b|] eqn:Hget; [exact Hget | apply get_set_same].
Qed.

Lemma ensure_city_get_other (d : Dict.t Bundle) c city :
  c <> city -> Dict.get (ensure_city d city) c = Dict.get d c.
Proof.
  intros Hne. unfold ensure_city.
  destruct (Dict.mem d city); [reflexivity | now apply get_set_other].
Qed.

Lemma update_city_get_same (d : Dict.t Bundle) c f b :
  Dict.get d c = Some b -> Dict.get (update_city d c f) c = Some (f b).
Proof. intros H. unfold update_city. rewrite H. apply get_set_same. Qed.

Lemma update_city_get_other (d : Dict.t Bundle) c city f :
  c <> city -> Dict.get (update_city d city f) c = Dict.get d c.
Proof.
  intros Hne. unfold update_city.
  destruct (Dict.get d city); [now apply get_set_other | reflexivity].
Qed.

(** One scan step on the entry of [city] keeps what the entry of [c]
    already has. *)
Lemma scan_step_keeps {A : Type} (d : Dict.t Bundle) c key city
    (f : A -> Bundle -> Bundle) (loaded : option A) :
  (forall obj b, has_key b key = true -> has_key (f obj b) key = true) ->
  scanned_key d c key ->
  scanned_key
    (match loaded with
     | Some obj => update_city (ensure_city d city) city (f obj)
     | None => ensure_city d city
     end) c key.
Proof.
  intros Hf (b & Hget & Hkey). unfold scanned_key.
  destruct (String.eqb_spec c city) as [<-|Hne].
  - assert (He : Dict.get (ensure_city d c) c = Some b)
      by (now rewrite ensure_city_get_same, Hget).
    destruct loaded as [obj|].
    + exists (f obj b). split; [now apply update_city_get_same | now apply Hf].
    + now exists b.
  - exists b. split; [|exact Hkey].
    destruct loaded as [obj|].
    + now rewrite update_city_get_other, ensure_city_get_other.
    + now rewrite ensure_city_get_other.
Qed.

Lemma load_file_keeps fs d file c key :
  scanned_key d c key -> scanned_key (load_file fs d file) c key.
Proof.
  intros H. unfold load_file.
  destruct (PyStr.endswith file "_temperature_model.pkl").
  { apply (scan_step_keeps d c key _
             (fun obj models =>
                {| temperature := Some obj; rain := rain models;
                   scaler := scaler models |})); [|exact H].
    intros obj b. unfold has_key. cbn.
    repeat (destruct (_ =? _)%string; [trivial|]). trivial. }
  destruct (PyStr.endswith file "_rain_model.pkl").
  { apply (scan_step_keeps d c key _
             (fun obj models =>
                {| temperature := temperature models; rain := Some obj;
                   scaler := scaler models |})); [|exact H].
    intros obj b. unfold has_key. cbn.
    repeat (destruct (_ =? _)%string; [trivial|]). trivial. }
  destruct (PyStr.endswith file "_scaler.pkl"); [|exact H].
  apply (scan_step_keeps d c key _
           (fun obj models =>
              {| temperature := temperature models; rain := rain models;
                 scaler := Some obj |})); [|exact H].
  intros obj b. unfold has_key. cbn.
  repeat (destruct (_ =? _)%string; [trivial|]). trivial.
Qed.

Lemma scan_keeps fs files :
  forall d c key,
    scanned_key d c key -> scanned_key (fold_left (load_file fs) files d) c key.
Proof.
  induction files as [|f files IH]; intros d c key H; [exact H|].
  cbn. apply IH. now apply load_file_keeps.
Qed.

Lemma scan_establishes fs files file c key :
  In file files ->
  (forall d, scanned_key (load_file fs d file) c key) ->
  forall d, scanned_key (fold_left (load_file fs) files d) c key.
Proof.
  intros Hin Hfile. induction files as [|f files IH]; [contradiction|].
  intros d. cbn. destruct Hin as [->|Hin].
  - apply scan_keeps. apply Hfile.
  - now apply IH.
Qed.

Lemma scan_step_sets {A : Type} (d : Dict.t Bundle) c key
    (f : A -> Bundle -> Bundle) obj :
  (forall b, has_key (f obj b) key = true) ->
  scanned_key (update_city (ensure_city d c) c (f obj)) c key.
Proof.
  intros Hf. eexists. split; [|apply Hf].
  apply update_city_get_same. apply ensure_city_get_same.
Qed.

(** The three file names of a city whose key has no dot are recognised
    as its temperature, rain and scaler files, and a file that unpickles
    fills that entry of the city. *)
Lemma load_file_trained fs d c :
  string_forall not_dot c = true ->
  (load_temperature fs (c ++ "_temperature_model.pkl") <> None ->
   scanned_key (load_file fs d (c ++ "_temperature_model.pkl")) c "temperature")
  /\ (load_rain fs (c ++ "_rain_model.pkl") <> None ->
      scanned_key (load_file fs d (c ++ "_rain_model.pkl")) c "rain")
  /\ (load_scaler fs (c ++ "_scaler.pkl") <> None ->
      scanned_key (load_file fs d (c ++ "_scaler.pkl")) c "scaler").
Proof.
  intros Hfree.
  destruct (suffixes_exclusive c) as (Hrt & Hst & Hsr).
  unfold load_file. repeat split.
  - rewrite endswith_append.
    rewrite (replace_strips_suffix c "_temperature_model.pkl" 18 Hfree eq_refl).
    destruct (load_temperature fs _) as [obj|]; [|congruence].
    intros _.
    now apply (scan_step_sets d c "temperature"
                 (fun o models =>
                    {| temperature := Some o; rain := rain models;
                       scaler := scaler models |}) obj).
  - rewrite Hrt, endswith_append.
    rewrite (replace_strips_suffix c "_rain_model.pkl" 11 Hfree eq_refl).
    destruct (load_rain fs _) as [obj|]; [|congruence].
    intros _.
    now apply (scan_step_sets d c "rain"
                 (fun o models =>
                    {| temperature := temperature models; rain := Some o;
                       scaler := scaler models |}) obj).
  - rewrite Hst, Hsr, endswith_append.
    rewrite (replace_strips_suffix c "_scaler.pkl" 7 Hfree eq_refl).
    destruct (load_scaler fs _) as [obj|]; [|congruence].
    intros _.
    now apply (scan_step_sets d c "scaler"
                 (fun o models =>
                    {| temperature := temperature models; rain := rain models;
                       scaler := Some o |}) obj).
Qed.

Lemma trained_registered fs files c :
  string_forall not_dot c = true ->
  listdir_models fs = Some (Ok files) ->
  In (c ++ "_temperature_model.pkl") files ->
  In (c ++ "_rain_model.pkl") files ->
  In (c ++ "_scaler.pkl") files ->
  load_temperature fs (c ++ "_temperature_model.pkl") <> None ->
  load_rain fs (c ++ "_rain_model.pkl") <> None ->
  load_scaler fs (c ++ "_scaler.pkl") <> None ->
  exists models b,
    _load_models fs = Ok models
    /\ Dict.get models c = Some b /\ complete b = true.
Proof.
  intros Hfree Hlist Ht Hr Hs Lt Lr Ls.
  assert (Hscan : exists b, In (c, b) (scanned_cities fs) /\ complete b = true).
  { unfold scanned_cities. rewrite Hlist.
    destruct (scan_establishes fs files _ c "temperature" Ht
                (fun d => proj1 (load_file_trained fs d c Hfree) Lt) [])
      as (b1 & G1 & K1).
    destruct (scan_establishes fs files _ c "rain" Hr
                (fun d => proj1 (proj2 (load_file_trained fs d c Hfree)) Lr) [])
      as (b2 & G2 & K2).
    destruct (scan_establishes fs files _ c "scaler" Hs
                (fun d => proj2 (proj2 (load_file_trained fs d c Hfree)) Ls) [])
      as (b3 & G3 & K3).
    rewrite G1 in G2, G3. inversion G2; inversion G3; subst b2 b3.
    exists b1. split; [now apply get_in|].
    unfold complete. cbn [forallb]. now rewrite K1, K2, K3. }
  destruct Hscan as (b & Hin & Hc).
  destruct (load_outcome fs)
    as [(models & Hload & _)|[(e & He & _)|(_ & _ & _ & Hnone)]].
  - exists models, b. split; [exact Hload|]. split; [|exact Hc].
    rewrite (loaded_is_built fs models Hload).
    apply add_complete_get_in; [apply scanned_cities_wf | exact Hin | exact Hc].
  - rewrite Hlist in He. discriminate.
  - rewrite (Hnone c b Hin) in Hc. discriminate.
Qed.

(** X14.  If the models directory lists the temperature, rain and scaler files
    of a city whose key has no dot, and each of the three unpickles, then
    loading succeeds and registers that city under its key with a
    complete bundle, whatever else the directory holds and in whatever
    order it is listed. *)
Theorem trained_files_are_registered :
  forall (fs : FileSystem) (files : list string) (c : string),
    string_forall not_dot c = true ->
    listdir_models fs = Some (Ok files) ->
    In (c ++ "_temperature_model.pkl") files ->
    In (c ++ "_rain_model.pkl") files ->
    In (c ++ "_scaler.pkl") files ->
    load_temperature fs (c ++ "_temperature_model.pkl") <> None ->
    load_rain fs (c ++ "_rain_model.pkl") <> None ->
    load_scaler fs (c ++ "_scaler.pkl") <> None ->
    exists models b,
      _load_models fs = Ok models
      /\ Dict.get models c = Some b /\ complete b = true.
Proof. exact trained_registered. Qed.

Lemma trained_files_are_registered_witness :
  exists models b,
    _load_models sample_fs = Ok models
    /\ Dict.get models "kolkata" = Some b /\ complete b = true.
Proof.
  apply (trained_files_are_registered sample_fs sample_listing "kolkata"
           eq_refl eq_refl).
  - cbn. tauto.
  - cbn. tauto.
  - cbn. tauto.
  - discriminate.
  - discriminate.
  - discriminate.
Defined.

Lemma training_key_is_request_key city_name :
  city_name <> EmptyString ->
  PyStr.strip (PyStr.lower city_name) = PyStr.lower city_name ->
  city_normalized city_name <> "bangalore" ->
  city_normalized city_name <> "bombay" ->
  city_normalized city_name <> "madras" ->
  _normalize_city_name (Some city_name) = city_normalized city_name.
Proof.
  intros Hne Hstrip H1 H2 H3.
  rewrite normalize_truthy by assumption. rewrite Hstrip.
  unfold city_normalized in *. rewrite replace_space_by_char in *.
  now apply city_mapping_get_other.
Qed.

(** X15.  A city trained under a name that has no surrounding whitespace, no
    dot, and is not one of the three alias sources is served its own
    bundle: once the three files that training writes for it are in the
    models directory and unpickle, a request with that city name resolves
    by exact match to the bundle registered under the key training used. *)
Theorem trained_city_is_served :
  forall (fs : FileSystem) (files : list string) (city_name : string),
    city_name <> EmptyString ->
    PyStr.strip (PyStr.lower city_name) = PyStr.lower city_name ->
    string_forall not_dot (city_normalized city_name) = true ->
    city_normalized city_name <> "bangalore" ->
    city_normalized city_name <> "bombay" ->
    city_normalized city_name <> "madras" ->
    listdir_models fs = Some (Ok files) ->
    incl (trained_files city_name) files ->
    load_temperature fs (city_normalized city_name ++ "_temperature_model.pkl")
      <> None ->
    load_rain fs (city_normalized city_name ++ "_rain_model.pkl") <> None ->
    load_scaler fs (city_normalized city_name ++ "_scaler.pkl") <> None ->
    exists models b,
      _load_models fs = Ok models
      /\ Dict.get models (city_normalized city_name) = Some b
      /\ get_models models (Some city_name) = Ok b.
Proof.
  intros fs files city_name Hne Hstrip Hfree H1 H2 H3 Hlist Hincl Lt Lr Ls.
  destruct (trained_registered fs files (city_normalized city_name) Hfree Hlist)
    as (models & b & Hload & Hget & Hc); try assumption;
    try (apply Hincl; cbn; tauto).
  exists models, b. split; [exact Hload|]. split; [exact Hget|].
  rewrite get_models_resolve, training_key_is_request_key by assumption.
  unfold resolve, exact_match. now rewrite Hget, Hc.
Qed.

Lemma trained_city_is_served_witness :
  exists models b,
    _load_models trained_fs = Ok models
    /\ Dict.get models "new_delhi" = Some b
    /\ get_models models (Some "New Delhi") = Ok b.
Proof.
  assert (Hne : "New Delhi" <> EmptyString) by discriminate.
  assert (H1 : city_normalized "New Delhi" <> "bangalore") by discriminate.
  assert (H2 : city_normalized "New Delhi" <> "bombay") by discriminate.
  assert (H3 : city_normalized "New Delhi" <> "madras") by discriminate.
  assert (Hincl : incl (trained_files "New Delhi")
                    ("notes.txt" :: trained_files "New Delhi"))
    by (intros f Hf; now right).
  assert (Lt : load_temperature trained_fs
                 (city_normalized "New Delhi" ++ "_temperature_model.pkl") <> None)
    by discriminate.
  assert (Lr : load_rain trained_fs
                 (city_normalized "New Delhi" ++ "_rain_model.pkl") <> None)
    by discriminate.
  assert (Ls : load_scaler trained_fs
                 (city_normalized "New Delhi" ++ "_scaler.pkl") <> None)
    by discriminate.
  exact (trained_city_is_served trained_fs _ "New Delhi" Hne eq_refl eq_refl
           H1 H2 H3 eq_refl Hincl Lt Lr Ls).
Defined.

(** ** The particulate index *)

Lemma float_leb_trans_finite q1 q2 bound :
  (q1 <= q2)%Q ->
  float_leb (Finite q2) bound = true -> float_leb (Finite q1) bound = true.
Proof.
  intros Hle. destruct bound as [b|negative|]; cbn.
  - rewrite !Qle_bool_iff. intros H. now apply (Qle_trans _ q2).
  - trivial.
  - trivial.
Qed.

(** X16.  With a finite PM2.5 value the category never gets milder when the
    value grows, the reported index is the PM2.5 value itself, and PM10
    plays no part; PM10 alone is always rated Moderate, whatever its
    value; and a PM2.5 value that is not a number is rated Very
    Unhealthy. *)
Theorem calculate_aqi_behaviour :
  forall (q1 q2 : Q) (pm10 pm10' : option float) (v : float),
    (q1 <= q2)%Q ->
    severity (category (calculate_aqi (Some (Finite q1)) pm10))
    <= severity (category (calculate_aqi (Some (Finite q2)) pm10))
    /\ aqi (calculate_aqi (Some (Finite q1)) pm10) = Some (Finite q1)
    /\ calculate_aqi (Some (Finite q1)) pm10
       = calculate_aqi (Some (Finite q1)) pm10'
    /\ calculate_aqi None (Some v) = {| aqi := Some v; category := "Moderate" |}
    /\ category (calculate_aqi (Some NaN) pm10) = "Very Unhealthy".
Proof.
  intros q1 q2 pm10 pm10' v Hle.
  pose proof (float_leb_trans_finite q1 q2 (Finite 12) Hle) as T1.
  pose proof (float_leb_trans_finite q1 q2 literal_35_4 Hle) as T2.
  pose proof (float_leb_trans_finite q1 q2 literal_55_4 Hle) as T3.
  pose proof (float_leb_trans_finite q1 q2 literal_150_4 Hle) as T4.
  split; [|split; [|split; [reflexivity | split; reflexivity]]].
  - unfold calculate_aqi.
    destruct (float_leb (Finite q2) (Finite 12)); [rewrite T1 by reflexivity; cbn; lia|].
    destruct (float_leb (Finite q2) literal_35_4);
      [rewrite T2 by reflexivity;
       destruct (float_leb (Finite q1) (Finite 12)); cbn; lia|].
    destruct (float_leb (Finite q2) literal_55_4);
      [rewrite T3 by reflexivity;
       destruct (float_leb (Finite q1) (Finite 12));
       destruct (float_leb (Finite q1) literal_35_4); cbn; lia|].
    destruct (float_leb (Finite q2) literal_150_4);
      [rewrite T4 by reflexivity;
       destruct (float_leb (Finite q1) (Finite 12));
       destruct (float_leb (Finite q1) literal_35_4);
       destruct (float_leb (Finite q1) literal_55_4); cbn; lia|].
    destruct (float_leb (Finite q1) (Finite 12));
      destruct (float_leb (Finite q1) literal_35_4);
      destruct (float_leb (Finite q1) literal_55_4);
      destruct (float_leb (Finite q1) literal_150_4); cbn; lia.
  - unfold calculate_aqi.
    repeat match goal with |- context [if ?c then _ else _] => destruct c end;
      reflexivity.
Qed.

Lemma calculate_aqi_behaviour_witness :
  severity (category (calculate_aqi (Some (Finite (12 # 1))) None))
  <= severity (category (calculate_aqi (Some (Finite (121 # 10))) None))
  /\ category (calculate_aqi (Some (Finite (121 # 10))) None) = "Moderate".
Proof.
  assert (Hle : (12 # 1 <= 121 # 10)%Q) by (unfold Qle; cbn; lia).
  split.
  - exact (proj1 (calculate_aqi_behaviour (12 # 1) (121 # 10) None None NaN Hle)).
  - reflexivity.
Defined.

(** ** Accounting of the store *)




(** ** A registry with one complete bundle *)

(** X19.  When exactly one registered bundle is complete, every request gets
    that bundle, whichever city it names and whichever key the bundle is
    registered under. *)
Theorem single_complete_bundle_serves_all :
  forall (models : Dict.t Bundle) (key : string) (b : Bundle)
         (city : option string),
    Dict.wf models ->
    In (key, b) models -> complete b = true ->
    (forall key' b', In (key', b') models -> complete b' = true -> b' = b) ->
    get_models models city = Ok b.
Proof.
  intros models key b city Hwf Hin Hc Hunique.
  destruct (get_models_outcome models city Hwf)
    as [(b' & Hget & Hc' & key' & Hin')|[_ Hnone]].
  - rewrite Hget. f_equal. now apply (Hunique key').
  - rewrite (Hnone key b Hin) in Hc. discriminate.
Qed.

Lemma single_complete_bundle_serves_all_witness :
  get_models damaged_models (Some "Mumbai") = Ok delhi_bundle.
Proof.
  apply (single_complete_bundle_serves_all damaged_models "delhi" delhi_bundle
           (Some "Mumbai") damaged_models_wf).
  - cbn. tauto.
  - reflexivity.
  - intros key' b' [H|[H|[]]] Hc; inversion H; subst;
      [discriminate Hc | reflexivity].
Defined.

(** ** What reaches the scaler *)

(** X20.  A request that is not rejected by validation hands the scaler six
    finite numbers between 0 and 1100: no NaN and no infinity reaches a
    model. *)
Theorem inference_sees_finite_features :
  forall (models : Dict.t Bundle) (db db' : Table) (session : Session)
         (input : WeatherInput.t) (response : Response),
    post_predict models db session input = (response, db') ->
    (forall fields, response <> RequestValidationError fields) ->
    List.length (feature_row input) = 6
    /\ forall x, In x (feature_row input) -> in_range 0 1100 x.
Proof.
  intros models db db' session input response Hrun Hpass.
  split; [reflexivity|].
  assert (Hvalid : validation_errors input = []).
  { unfold post_predict in Hrun.
    destruct (validation_errors input) as [|f fs]; [reflexivity|].
    inversion Hrun; subst. now elim (Hpass (f :: fs)). }
  apply validation_errors_nil in Hvalid
    as (Hh & Hp & Hw & Hc & Hm & Hd).
  assert (Hwiden : forall lo hi x,
             (0 <= lo)%Z -> (hi <= 1100)%Z -> in_range lo hi x -> in_range 0 1100 x).
  { intros lo hi x Hlo Hhi (q & -> & H1 & H2). exists q. repeat split.
    - apply (Qle_trans _ (inject_Z lo)); [|exact H1].
      rewrite <- Zle_Qle. exact Hlo.
    - apply (Qle_trans _ (inject_Z hi)); [exact H2|].
      rewrite <- Zle_Qle. exact Hhi. }
  assert (Hint : forall z, (1 <= z <= 31)%Z -> in_range 0 1100 (float_of_int z)).
  { intros z Hz. exists (inject_Z z). repeat split; rewrite <- Zle_Qle; lia. }
  intros x [<-|[<-|[<-|[<-|[<-|[<-|[]]]]]]].
  - apply (Hwiden 0%Z 100%Z); [lia | lia | exact Hh].
  - apply (Hwiden 900%Z 1100%Z); [lia | lia | exact Hp].
  - apply (Hwiden 0%Z 100%Z); [lia | lia | exact Hw].
  - apply (Hwiden 0%Z 100%Z); [lia | lia | exact Hc].
  - apply Hint. lia.
  - apply Hint. lia.
Qed.

Lemma inference_sees_finite_features_witness :
  in_range 0 1100 (WeatherInput.pressure sample_input).
Proof.
  assert (Hpass : forall fields,
             fst (post_predict sample_models [] healthy_session sample_input)
             <> RequestValidationError fields)
    by (intros fields; discriminate).
  apply (proj2 (inference_sees_finite_features sample_models [] _
                  healthy_session sample_input _ (surjective_pairing _) Hpass)).
  cbn. tauto.
Defined.
